(** * PlaneStrike: the TF-Agents python environment of the board game

    A shallow embedding of
    [tfagents-flutter/step0/backend/planestrike_py_environment.py]
    and the properties of its board generator, its constructor, its
    reset, its step and its render method.

    Python integers are [Z].  Numpy boards are lists of rows; the cells
    only ever hold the values -1, 0 and 1, which are kept as [Z], and a
    board carries no element type (a spec does).
    Methods run in a state-and-exception monad over the object [self]
    and the state of the process-wide [random] module; a raised
    exception keeps the attributes written before it, as in Python. *)

From Stdlib Require Import ZArith Lia QArith_base.
From stdpp Require Import base list strings.

#[local] Open Scope Z_scope.

(** ** Module constants *)

Definition BOARD_SIZE : Z := 8.
Definition PLANE_SIZE : Z := 8.
Definition MAX_STEPS_PER_EPISODE : Z := BOARD_SIZE ^ 2.

Definition PLANE_HEADING_RIGHT : Z := 0.
Definition PLANE_HEADING_UP : Z := 1.
Definition PLANE_HEADING_LEFT : Z := 2.
Definition PLANE_HEADING_DOWN : Z := 3.

Definition HIT_REWARD : Z := 1.
Definition MISS_REWARD : Z := 0.
Definition REPEAT_STRIKE_REWARD : Z := -1.
Definition FINISHED_GAME_REWARD : Z := 10.
Definition UNFINISHED_GAME_REWARD : Z := -10.

Definition HIDDEN_BOARD_CELL_OCCUPIED : Z := 1.
Definition HIDDEN_BOARD_CELL_UNOCCUPIED : Z := 0.

Definition VISIBLE_BOARD_CELL_HIT : Z := 1.
Definition VISIBLE_BOARD_CELL_MISS : Z := -1.
Definition VISIBLE_BOARD_CELL_UNTRIED : Z := 0.

(** ** Values of the object *)

(** A two-dimensional numpy array, row by row. *)
Abbreviation Board := (list (list Z)).

(** The numpy element types the file names. *)
Inductive dtype : Type := int32 | float32.

(** The least and the greatest finite value of an element type. *)
Definition dtype_low (dt : dtype) : Z :=
  match dt with
  | int32 => - 2 ^ 31
  | float32 => - (2 ^ 128 - 2 ^ 104)
  end.

Definition dtype_high (dt : dtype) : Z :=
  match dt with
  | int32 => 2 ^ 31 - 1
  | float32 => 2 ^ 128 - 2 ^ 104
  end.

(** [array_spec.BoundedArraySpec]: the shape, the element type and the
    two bounds. *)
Record BoundedArraySpec : Type := mkSpec {
  spec_shape : list Z;
  spec_dtype : dtype;
  spec_minimum : Z;
  spec_maximum : Z
}.

Inductive StepType : Type := FIRST | MID | LAST.

(** [ts.TimeStep]. *)
Record TimeStep : Type := mkTimeStep {
  step_type : StepType;
  reward : Z;
  discount : Q;
  observation : Board
}.

Definition is_last (t : TimeStep) : bool :=
  match step_type t with LAST => true | _ => false end.

(** The attributes of a [PlaneStrikePyEnvironment].  The time-step spec
    and the state of the tf_agents base class are left out: no method of
    the file reads them. *)
Record Session : Type := mkSession {
  _board_size : Z;
  _strike_count : Z;
  _discount : Q;
  _max_steps : Z;
  _episode_ended : bool;
  _action_spec : BoundedArraySpec;
  _observation_spec : BoundedArraySpec;
  _plane_size : Z;
  _hit_count : Z;
  _visible_board : Board;
  _hidden_board : Board
}.

(** The exceptions the module can raise. *)
Inductive exn : Type :=
  | AssertionError
  | ValueError
  | IndexError
  | UnboundLocalError.

Inductive result (A : Type) : Type :=
  | Ok (a : A)
  | Raise (e : exn).
Arguments Ok {A} a.
Arguments Raise {A} e.

(** ** The interpreter state

    [random] is the state of Python's global generator: the stream of
    raw numbers it still has to deliver. *)
Definition Rng : Type := nat → Z.

Record World : Type := mkWorld {
  self : Session;
  random : Rng
}.

Definition Py (A : Type) : Type := World → result A * World.

#[global] Instance Py_ret : MRet Py := λ A a w, (Ok a, w).
#[global] Instance Py_bind : MBind Py := λ A B k m w,
  match m w with
  | (Ok a, w') => k a w'
  | (Raise e, w') => (Raise e, w')
  end.

Definition raise {A} (e : exn) : Py A := λ w, (Raise e, w).

Definition get {A} (f : Session → A) : Py A := λ w, (Ok (f (self w)), w).

Definition modify (f : Session → Session) : Py unit :=
  λ w, (Ok tt, mkWorld (f (self w)) (random w)).

(** Attribute assignments [self._x = v]. *)
Definition set_board_size (v : Z) (s : Session) : Session :=
  mkSession v (_strike_count s) (_discount s) (_max_steps s)
    (_episode_ended s) (_action_spec s) (_observation_spec s)
    (_plane_size s) (_hit_count s) (_visible_board s) (_hidden_board s).
Definition set_strike_count (v : Z) (s : Session) : Session :=
  mkSession (_board_size s) v (_discount s) (_max_steps s)
    (_episode_ended s) (_action_spec s) (_observation_spec s)
    (_plane_size s) (_hit_count s) (_visible_board s) (_hidden_board s).
Definition set_discount (v : Q) (s : Session) : Session :=
  mkSession (_board_size s) (_strike_count s) v (_max_steps s)
    (_episode_ended s) (_action_spec s) (_observation_spec s)
    (_plane_size s) (_hit_count s) (_visible_board s) (_hidden_board s).
Definition set_max_steps (v : Z) (s : Session) : Session :=
  mkSession (_board_size s) (_strike_count s) (_discount s) v
    (_episode_ended s) (_action_spec s) (_observation_spec s)
    (_plane_size s) (_hit_count s) (_visible_board s) (_hidden_board s).
Definition set_episode_ended (v : bool) (s : Session) : Session :=
  mkSession (_board_size s) (_strike_count s) (_discount s) (_max_steps s)
    v (_action_spec s) (_observation_spec s)
    (_plane_size s) (_hit_count s) (_visible_board s) (_hidden_board s).
Definition set_action_spec (v : BoundedArraySpec) (s : Session) : Session :=
  mkSession (_board_size s) (_strike_count s) (_discount s) (_max_steps s)
    (_episode_ended s) v (_observation_spec s)
    (_plane_size s) (_hit_count s) (_visible_board s) (_hidden_board s).
Definition set_observation_spec (v : BoundedArraySpec) (s : Session)
  : Session :=
  mkSession (_board_size s) (_strike_count s) (_discount s) (_max_steps s)
    (_episode_ended s) (_action_spec s) v
    (_plane_size s) (_hit_count s) (_visible_board s) (_hidden_board s).
Definition set_plane_size (v : Z) (s : Session) : Session :=
  mkSession (_board_size s) (_strike_count s) (_discount s) (_max_steps s)
    (_episode_ended s) (_action_spec s) (_observation_spec s)
    v (_hit_count s) (_visible_board s) (_hidden_board s).
Definition set_hit_count (v : Z) (s : Session) : Session :=
  mkSession (_board_size s) (_strike_count s) (_discount s) (_max_steps s)
    (_episode_ended s) (_action_spec s) (_observation_spec s)
    (_plane_size s) v (_visible_board s) (_hidden_board s).
Definition set_visible_board (v : Board) (s : Session) : Session :=
  mkSession (_board_size s) (_strike_count s) (_discount s) (_max_steps s)
    (_episode_ended s) (_action_spec s) (_observation_spec s)
    (_plane_size s) (_hit_count s) v (_hidden_board s).
Definition set_hidden_board (v : Board) (s : Session) : Session :=
  mkSession (_board_size s) (_strike_count s) (_discount s) (_max_steps s)
    (_episode_ended s) (_action_spec s) (_observation_spec s)
    (_plane_size s) (_hit_count s) (_visible_board s) v.

(** ** Library calls *)

(** [random.randint(a, b)]: an integer N with a <= N <= b, taken from
    the next raw number of the generator; [ValueError] on an empty
    range. *)
Definition randint (a b : Z) : Py Z := λ w,
  if b <? a then (Raise ValueError, w)
  else (Ok (a + random w 0%nat `mod` (b - a + 1)),
        mkWorld (self w) (λ k, random w (S k))).

(** [np.ones((rows, cols))] and [np.zeros((rows, cols))]: [ValueError]
    on a negative dimension. *)
Definition np_ones (rows cols : Z) : Py Board :=
  if (rows <? 0) || (cols <? 0) then raise ValueError
  else mret (replicate (Z.to_nat rows) (replicate (Z.to_nat cols) 1)).

Definition np_zeros (rows cols : Z) : Py Board :=
  if (rows <? 0) || (cols <? 0) then raise ValueError
  else mret (replicate (Z.to_nat rows) (replicate (Z.to_nat cols) 0)).

(** [array_spec.BoundedArraySpec(shape, dtype, minimum=, maximum=)] of
    tf_agents: [ValueError] when the minimum exceeds the maximum or when
    a bound lies outside the range of the element type. *)
Definition array_spec_BoundedArraySpec (shape : list Z) (dt : dtype)
    (minimum maximum : Z) : Py BoundedArraySpec :=
  if (maximum <? minimum)
     || (minimum <? dtype_low dt) || (dtype_high dt <? minimum)
     || (maximum <? dtype_low dt) || (dtype_high dt <? maximum)
  then raise ValueError
  else mret (mkSpec shape dt minimum maximum).

(** [array * scalar]. *)
Definition np_mul (b : Board) (k : Z) : Board :=
  (λ row : list Z, (λ x, x * k) <$> row) <$> (b : list (list Z)).

(** Numpy index normalisation along an axis of length [len]: negative
    indices count from the end, anything else out of range raises. *)
Definition norm_index (len : nat) (i : Z) : result nat :=
  if (0 <=? i) && (i <? Z.of_nat len) then Ok (Z.to_nat i)
  else if (- Z.of_nat len <=? i) && (i <? 0) then Ok (Z.to_nat (i + Z.of_nat len))
  else Raise IndexError.

(** The write at checked positions. *)
Definition set_cell (b : Board) (i j : nat) (v : Z) : Board :=
  match b !! i with
  | Some row => <[i := <[j := v]> row]> b
  | None => b
  end.

(** [board[r][c] = v]. *)
Definition setitem (b : Board) (r c : Z) (v : Z) : Py Board :=
  match norm_index (length b) r with
  | Raise e => raise e
  | Ok i =>
      match b !! i with
      | None => raise IndexError
      | Some row =>
          match norm_index (length row) c with
          | Raise e => raise e
          | Ok j => mret (set_cell b i j v)
          end
      end
  end.

(** ** The board generator *)

Definition initialize_random_hidden_board (board_size : Z) : Py Board :=
  ones ← np_ones board_size board_size;
  let hidden_board := np_mul ones HIDDEN_BOARD_CELL_UNOCCUPIED in
  plane_orientation ← randint 0 3;
  '(plane_core_row, plane_core_column, hidden_board) ←
    (if plane_orientation =? PLANE_HEADING_RIGHT then
       plane_core_row ← randint 1 (board_size - 2);
       plane_core_column ← randint 2 (board_size - 2);
       hidden_board ← setitem hidden_board
         plane_core_row (plane_core_column - 2) HIDDEN_BOARD_CELL_OCCUPIED;
       hidden_board ← setitem hidden_board
         (plane_core_row - 1) (plane_core_column - 2) HIDDEN_BOARD_CELL_OCCUPIED;
       hidden_board ← setitem hidden_board
         (plane_core_row + 1) (plane_core_column - 2) HIDDEN_BOARD_CELL_OCCUPIED;
       mret (plane_core_row, plane_core_column, hidden_board)
     else if plane_orientation =? PLANE_HEADING_UP then
       plane_core_row ← randint 1 (board_size - 3);
       plane_core_column ← randint 1 (board_size - 3);
       hidden_board ← setitem hidden_board
         (plane_core_row + 2) plane_core_column HIDDEN_BOARD_CELL_OCCUPIED;
       hidden_board ← setitem hidden_board
         (plane_core_row + 2) (plane_core_column + 1) HIDDEN_BOARD_CELL_OCCUPIED;
       hidden_board ← setitem hidden_board
         (plane_core_row + 2) (plane_core_column - 1) HIDDEN_BOARD_CELL_OCCUPIED;
       mret (plane_core_row, plane_core_column, hidden_board)
     else if plane_orientation =? PLANE_HEADING_LEFT then
       plane_core_row ← randint 1 (board_size - 2);
       plane_core_column ← randint 1 (board_size - 3);
       hidden_board ← setitem hidden_board
         plane_core_row (plane_core_column + 2) HIDDEN_BOARD_CELL_OCCUPIED;
       hidden_board ← setitem hidden_board
         (plane_core_row - 1) (plane_core_column + 2) HIDDEN_BOARD_CELL_OCCUPIED;
       hidden_board ← setitem hidden_board
         (plane_core_row + 1) (plane_core_column + 2) HIDDEN_BOARD_CELL_OCCUPIED;
       mret (plane_core_row, plane_core_column, hidden_board)
     else if plane_orientation =? PLANE_HEADING_DOWN then
       plane_core_row ← randint 2 (board_size - 2);
       plane_core_column ← randint 1 (board_size - 2);
       hidden_board ← setitem hidden_board
         (plane_core_row - 2) plane_core_column HIDDEN_BOARD_CELL_OCCUPIED;
       hidden_board ← setitem hidden_board
         (plane_core_row - 2) (plane_core_column + 1) HIDDEN_BOARD_CELL_OCCUPIED;
       hidden_board ← setitem hidden_board
         (plane_core_row - 2) (plane_core_column - 1) HIDDEN_BOARD_CELL_OCCUPIED;
       mret (plane_core_row, plane_core_column, hidden_board)
     else
       (* no branch binds the core: the first read below fails *)
       raise UnboundLocalError);
  hidden_board ← setitem hidden_board
    plane_core_row plane_core_column HIDDEN_BOARD_CELL_OCCUPIED;
  hidden_board ← setitem hidden_board
    (plane_core_row + 1) plane_core_column HIDDEN_BOARD_CELL_OCCUPIED;
  hidden_board ← setitem hidden_board
    (plane_core_row - 1) plane_core_column HIDDEN_BOARD_CELL_OCCUPIED;
  hidden_board ← setitem hidden_board
    plane_core_row (plane_core_column + 1) HIDDEN_BOARD_CELL_OCCUPIED;
  hidden_board ← setitem hidden_board
    plane_core_row (plane_core_column - 1) HIDDEN_BOARD_CELL_OCCUPIED;
  mret hidden_board.

(** ** The environment class *)

(** [np.array(b, dtype=np.float32)]: a copy of the array; the cell
    values -1, 0 and 1 are the same in every float type. *)
Definition np_array (b : Board) : Board := b.

(** Modelled from the spec: [ts.restart] belongs to the tf_agents
    package, which the repository only imports.  The time step that
    opens an episode carries the observation, reward 0 and is not
    terminal (step type FIRST, discount 1). *)
Definition ts_restart (obs : Board) : TimeStep := mkTimeStep FIRST 0 (1 # 1) obs.

Definition set_boards : Py unit :=
  modify (set_plane_size PLANE_SIZE);;
  modify (set_hit_count 0);;
  rows ← get _board_size;
  cols ← get _board_size;
  visible_board ← np_zeros rows cols;
  modify (set_visible_board visible_board);;
  board_size ← get _board_size;
  hidden_board ← initialize_random_hidden_board board_size;
  modify (set_hidden_board hidden_board).

(** The body of the constructor, after the call of the base class
    constructor.  Omitted keyword arguments are [None] and take the
    defaults of the signature, which Python evaluates once, when the
    class is defined.  The decimal literal 0.9 is kept as a rational;
    the class stores the discount and never computes with it. *)
Definition __init__ (board_size : option Z) (discount : option Q)
    (max_steps : option Z) : Py unit :=
  let board_size := default BOARD_SIZE board_size in
  let discount := default (9 # 10) discount in
  let max_steps := default MAX_STEPS_PER_EPISODE max_steps in
  if negb (4 <=? board_size) then raise AssertionError else
  modify (set_board_size board_size);;
  modify (set_strike_count 0);;
  modify (set_discount discount);;
  modify (set_max_steps max_steps);;
  modify (set_episode_ended false);;
  n ← get _board_size;
  spec ← array_spec_BoundedArraySpec [] int32 0 (n ^ 2 - 1);
  modify (set_action_spec spec);;
  rows ← get _board_size;
  cols ← get _board_size;
  spec ← array_spec_BoundedArraySpec [rows; cols] float32
           VISIBLE_BOARD_CELL_MISS VISIBLE_BOARD_CELL_HIT;
  modify (set_observation_spec spec);;
  set_boards.

(** The object before [__init__] has run.  Every attribute is written by
    [__init__] before anything reads it. *)
Definition blank : Session :=
  mkSession 0 0 (0 # 1) 0 false (mkSpec [] int32 0 0) (mkSpec [] int32 0 0)
    0 0 [] [].

(** [PlaneStrikePyEnvironment(board_size, discount, max_steps)]: the new
    object when [__init__] returns, its exception otherwise. *)
Definition PlaneStrikePyEnvironment (board_size : option Z)
    (discount : option Q) (max_steps : option Z) (r : Rng)
  : result Session * Rng :=
  match __init__ board_size discount max_steps (mkWorld blank r) with
  | (Ok _, w) => (Ok (self w), random w)
  | (Raise e, w) => (Raise e, random w)
  end.

Definition _reset : Py TimeStep :=
  modify (set_episode_ended false);;
  modify (set_strike_count 0);;
  modify (set_hit_count 0);;
  set_boards;;
  visible_board ← get _visible_board;
  mret (ts_restart (np_array visible_board)).

(** The body of [_step] is a docstring and a comment: the call returns
    [None] and touches nothing. *)
Definition _step (action : Z) : Py (option TimeStep) := mret None.

Definition render (mode : string) : Py Board :=
  if bool_decide (mode ≠ "human") then raise ValueError
  else get _visible_board.

(** ** The plane shape of the design

    These definitions follow the words of the design document (§4.1):
    the cross, the tail of each heading and the range of the core. *)

Inductive Orientation : Type :=
  | HeadingRight | HeadingUp | HeadingLeft | HeadingDown.

Definition Cell : Type := Z * Z.

(** The centre cell and its four orthogonal neighbours. *)
Definition cross (r c : Z) : list Cell :=
  [(r, c); (r + 1, c); (r - 1, c); (r, c + 1); (r, c - 1)].

Definition tail (o : Orientation) (r c : Z) : list Cell :=
  match o with
  | HeadingRight => [(r - 1, c - 2); (r, c - 2); (r + 1, c - 2)]
  | HeadingUp => [(r + 2, c - 1); (r + 2, c); (r + 2, c + 1)]
  | HeadingLeft => [(r - 1, c + 2); (r, c + 2); (r + 1, c + 2)]
  | HeadingDown => [(r - 2, c - 1); (r - 2, c); (r - 2, c + 1)]
  end.

Definition template (o : Orientation) (r c : Z) : list Cell :=
  cross r c ++ tail o r c.

Definition core_in_range (n : Z) (o : Orientation) (r c : Z) : Prop :=
  match o with
  | HeadingRight => (1 ≤ r ≤ n - 2) ∧ (2 ≤ c ≤ n - 2)
  | HeadingUp => (1 ≤ r ≤ n - 3) ∧ (1 ≤ c ≤ n - 3)
  | HeadingLeft => (1 ≤ r ≤ n - 2) ∧ (1 ≤ c ≤ n - 3)
  | HeadingDown => (2 ≤ r ≤ n - 2) ∧ (1 ≤ c ≤ n - 2)
  end.

(** ** Reading a board *)

(** The value at grid coordinate (i, j); [None] off the grid. *)
Definition cell (b : Board) (i j : Z) : option Z :=
  if (0 <=? i) && (0 <=? j) then
    match b !! Z.to_nat i with
    | Some row => row !! Z.to_nat j
    | None => None
    end
  else None.

Definition occupied (b : Board) (i j : Z) : Prop :=
  cell b i j = Some HIDDEN_BOARD_CELL_OCCUPIED.

Definition count_row (row : list Z) : nat :=
  length (filter (λ x, x = HIDDEN_BOARD_CELL_OCCUPIED) row).

(** The number of occupied cells of a board. *)
Definition count_occupied (b : Board) : nat :=
  sum_list (count_row <$> (b : list (list Z))).

(** A square array of side [n]. *)
Definition shaped (n : Z) (b : Board) : Prop :=
  Z.of_nat (length b) = n ∧ Forall (λ row, Z.of_nat (length row) = n) b.

(** The invariant of a hidden board: a square of side [n] whose cells
    are occupied or unoccupied, with exactly 8 occupied cells, which
    are the 5 cross cells and the 3 tail cells of one heading around a
    core inside that heading's range, all of them on the grid. *)
Definition plane_invariant (n : Z) (b : Board) : Prop :=
  shaped n b ∧
  count_occupied b = 8%nat ∧
  (∃ o r c,
      core_in_range n o r c ∧
      NoDup (template o r c) ∧
      length (cross r c) = 5%nat ∧ length (tail o r c) = 3%nat ∧
      ∀ i j, occupied b i j ↔ (i, j) ∈ template o r c) ∧
  (∀ i j, occupied b i j → (0 ≤ i < n) ∧ (0 ≤ j < n)) ∧
  (∀ i j, 0 ≤ i < n → 0 ≤ j < n →
          cell b i j = Some HIDDEN_BOARD_CELL_OCCUPIED ∨
          cell b i j = Some HIDDEN_BOARD_CELL_UNOCCUPIED).

(** Every cell of a square board of side [n] is untried. *)
Definition all_untried (n : Z) (b : Board) : Prop :=
  shaped n b ∧
  ∀ i j, 0 ≤ i < n → 0 ≤ j < n → cell b i j = Some VISIBLE_BOARD_CELL_UNTRIED.

(** ** Reasoning about runs *)

(** The run of [m] from [w] returns normally with a result and a final
    world that satisfy [Q]. *)
Definition ensures {A} (m : Py A) (w : World) (Q : A → World → Prop) : Prop :=
  ∃ a w', m w = (Ok a, w') ∧ Q a w'.

(** The world after one draw. *)
Definition advance (w : World) : World :=
  mkWorld (self w) (λ k, random w (S k)).

(** [board[r][c] = v] at a grid coordinate. *)
Definition put (b : Board) (r c : Z) (v : Z) : Board :=
  set_cell b (Z.to_nat r) (Z.to_nat c) v.

(** The board has side [n], its occupied cells are exactly the cells of
    [L], and it counts them once each. *)
Definition painted (n : Z) (b : Board) (L : list Cell) : Prop :=
  shaped n b ∧
  (∀ i j, 0 ≤ i < n → 0 ≤ j < n →
          cell b i j = Some (if decide ((i, j) ∈ L)
                             then HIDDEN_BOARD_CELL_OCCUPIED
                             else HIDDEN_BOARD_CELL_UNOCCUPIED)) ∧
  count_occupied b = length L ∧
  Forall (λ p : Cell, (0 ≤ p.1 < n) ∧ (0 ≤ p.2 < n)) L.

(** What [set_boards] leaves behind, given the generated board. *)
Definition boards_set (s : Session) (hb : Board) : Session :=
  set_hidden_board hb
    (set_visible_board
       (replicate (Z.to_nat (_board_size s)) (replicate (Z.to_nat (_board_size s)) 0))
       (set_hit_count 0 (set_plane_size PLANE_SIZE s))).

(** A generator state that delivers the same raw number for ever. *)
Definition const_rng (v : Z) : Rng := λ _, v.

(** The greatest board side whose action bound [board_size ** 2 - 1]
    is an int32. *)
Definition MAX_INT32_SIDE : Z := 46340.

(** The object of [__init__] on entry to its call of [set_boards]. *)
Definition configured (board_size : Z) (discount : Q) (max_steps : Z)
  : Session :=
  mkSession board_size 0 discount max_steps false
    (mkSpec [] int32 0 (board_size ^ 2 - 1))
    (mkSpec [board_size; board_size] float32
       VISIBLE_BOARD_CELL_MISS VISIBLE_BOARD_CELL_HIT)
    (_plane_size blank) (_hit_count blank)
    (_visible_board blank) (_hidden_board blank).

(** The object of [_reset] on entry to its call of [set_boards]. *)
Definition cleared (s : Session) : Session :=
  set_hit_count 0 (set_strike_count 0 (set_episode_ended false s)).

(** The worlds a program can be in between two calls on a session: the
    object came out of the constructor and went through any number of
    [_reset], [_step] and [render] calls, returned or raised; other code
    may have drawn from [random] in between. *)
Inductive reachable : World → Prop :=
  | reach_new bs d ms r s r' :
      PlaneStrikePyEnvironment bs d ms r = (Ok s, r') →
      reachable (mkWorld s r')
  | reach_reset w : reachable w → reachable (_reset w).2
  | reach_step action w : reachable w → reachable (_step action w).2
  | reach_render mode w : reachable w → reachable (render mode w).2
  | reach_random w r : reachable w → reachable (mkWorld (self w) r).

(** A session whose cell (0, 0) is already resolved as a hit: the object
    of [PlaneStrikePyEnvironment(board_size=4)] after the caller wrote
    [VISIBLE_BOARD_CELL_HIT] there through the array that [render]
    hands out. *)
Definition struck_once (s : Session) : Session :=
  set_visible_board (put (_visible_board s) 0 0 VISIBLE_BOARD_CELL_HIT) s.

(** A session in the middle of an episode on a board of side 4: seven
    strikes made, three hits and two misses shown. *)
Definition mid_game : World :=
  mkWorld
    (mkSession 4 7 (9 # 10) 64 false (mkSpec [] int32 0 15)
       (mkSpec [4; 4] float32 (-1) 1)
       8 3
       [[0; 1; 0; 0]; [0; 0; 1; -1]; [0; 1; 0; 0]; [0; 0; 0; -1]]
       [[0; 1; 0; 0]; [1; 1; 1; 0]; [0; 1; 0; 0]; [1; 1; 1; 0]])
    (const_rng 1).

(** ** The spec accessors *)

Definition observation_spec : Py BoundedArraySpec := get _observation_spec.

Definition action_spec : Py BoundedArraySpec := get _action_spec.

(** ** Further notions for the properties below *)

(** The run of [m] from [w] raises [e] and leaves a world with [Q]. *)
Definition raises {A} (m : Py A) (w : World) (e : exn) (Q : World → Prop)
  : Prop :=
  ∃ w', m w = (Raise e, w') ∧ Q w'.

(** [m] neither reads nor writes the object: from the same generator
    state it gives the same outcome and the same generator state,
    whatever the object is, and the object stays. *)
Definition self_blind {A} (m : Py A) : Prop :=
  ∀ s1 s2 r, ∃ res r',
    m (mkWorld s1 r) = (res, mkWorld s1 r') ∧
    m (mkWorld s2 r) = (res, mkWorld s2 r').

(** The generator state after three draws. *)
Definition after_three (r : Rng) : Rng := λ k, r (S (S (S k))).

(** The heading and the core that [initialize_random_hidden_board]
    takes from the next three raw numbers of the generator. *)
Definition drawn_placement (n : Z) (r : Rng) : Orientation * Z * Z :=
  let o := 0 + r 0%nat `mod` (3 - 0 + 1) in
  if o =? PLANE_HEADING_RIGHT then
    (HeadingRight, 1 + r 1%nat `mod` (n - 2 - 1 + 1),
                   2 + r 2%nat `mod` (n - 2 - 2 + 1))
  else if o =? PLANE_HEADING_UP then
    (HeadingUp, 1 + r 1%nat `mod` (n - 3 - 1 + 1),
                1 + r 2%nat `mod` (n - 3 - 1 + 1))
  else if o =? PLANE_HEADING_LEFT then
    (HeadingLeft, 1 + r 1%nat `mod` (n - 2 - 1 + 1),
                  1 + r 2%nat `mod` (n - 3 - 1 + 1))
  else
    (HeadingDown, 2 + r 1%nat `mod` (n - 2 - 2 + 1),
                  1 + r 2%nat `mod` (n - 2 - 1 + 1)).

(** The occupied cells of [b] are exactly the plane of heading [o]
    around the core ([r], [c]). *)
Definition shows_plane (b : Board) (o : Orientation) (r c : Z) : Prop :=
  ∀ i j, occupied b i j ↔ (i, j) ∈ template o r c.

(** Two cells that share a side. *)
Definition adjacent (p q : Cell) : Prop :=
  Z.abs (p.1 - q.1) + Z.abs (p.2 - q.2) = 1.

(** A path from [p] through cells of [occ], each sharing a side with
    the one before. *)
Inductive linked (occ : Cell → Prop) (p : Cell) : Cell → Prop :=
  | linked_here : occ p → linked occ p p
  | linked_step q t : linked occ p q → occ t → adjacent q t → linked occ p t.

(** The raw number that makes [randint] deliver heading [o]. *)
Definition heading_code (o : Orientation) : Z :=
  match o with
  | HeadingRight => PLANE_HEADING_RIGHT
  | HeadingUp => PLANE_HEADING_UP
  | HeadingLeft => PLANE_HEADING_LEFT
  | HeadingDown => PLANE_HEADING_DOWN
  end.

(** The least row and the least column of a core of heading [o]. *)
Definition least_core (o : Orientation) : Z * Z :=
  match o with
  | HeadingRight => (1, 2)
  | HeadingUp => (1, 1)
  | HeadingLeft => (1, 1)
  | HeadingDown => (2, 1)
  end.

(** A generator state whose next three draws give heading [o] and the
    core ([r], [c]). *)
Definition rng_for (o : Orientation) (r c : Z) : Rng := λ k,
  match k with
  | O => heading_code o
  | S O => r - (least_core o).1
  | S (S O) => c - (least_core o).2
  | _ => 0
  end.

(** The array [b] has the shape of the spec [sp] of a square board and
    every cell within its bounds.  The element type of the spec is not
    compared: the boards of this development carry their cell values
    only. *)
Definition within_shape_and_bounds (sp : BoundedArraySpec) (b : Board)
  : Prop :=
  ∃ n, spec_shape sp = [n; n] ∧ shaped n b ∧
       ∀ i j v, cell b i j = Some v → spec_minimum sp ≤ v ≤ spec_maximum sp.

(** What every method keeps of a session, and what no method moves. *)
Definition settled (s : Session) : Prop :=
  4 ≤ _board_size s ∧
  _plane_size s = PLANE_SIZE ∧
  _action_spec s = mkSpec [] int32 0 (_board_size s ^ 2 - 1) ∧
  _observation_spec s
  = mkSpec [_board_size s; _board_size s] float32
      VISIBLE_BOARD_CELL_MISS VISIBLE_BOARD_CELL_HIT ∧
  plane_invariant (_board_size s) (_hidden_board s) ∧
  all_untried (_board_size s) (_visible_board s) ∧
  _strike_count s = 0 ∧ _hit_count s = 0 ∧ _episode_ended s = false.

(** The world after [PlaneStrikePyEnvironment(board_size=4)] on a
    generator that keeps delivering 0. *)
Definition first_session : World :=
  match PlaneStrikePyEnvironment (Some 4) None None (const_rng 0) with
  | (Ok s, r) => mkWorld s r
  | (Raise _, r) => mkWorld blank r
  end.

(** That session after a reset, a step, a failed render and another
    step. *)
Definition used_session : World :=
  (_step 5 (render "ansi" (_step 0 (_reset first_session).2).2).2).2.

(** Another session of the same configuration as [mid_game], with its
    own counters and boards and an ended episode. *)
Definition ended_game : World :=
  mkWorld
    (mkSession 4 64 (9 # 10) 64 true (mkSpec [] int32 0 15)
       (mkSpec [4; 4] float32 (-1) 1)
       8 2
       [[-1; -1; -1; -1]; [-1; 0; -1; 1]; [0; 0; 1; 0]; [-1; 0; -1; 0]]
       [[0; 0; 0; 0]; [0; 1; 0; 1]; [1; 1; 1; 1]; [0; 1; 0; 1]])
    (const_rng 1).

(** The session of
    [PlaneStrikePyEnvironment(board_size=5, max_steps=12)] on a
    generator that keeps delivering 3. *)
Definition built_session : Session :=
  match PlaneStrikePyEnvironment (Some 5) None (Some 12) (const_rng 3) with
  | (Ok s, _) => s
  | (Raise _, _) => blank
  end.

Lemma ensures_ret {A} (a : A) w (Q : A → World → Prop) :
  Q a w → ensures (mret a) w Q.
Proof. intros HQ. exists a, w. split; [reflexivity | exact HQ]. Qed.

Lemma ensures_bind {A B} (m : Py A) (k : A → Py B) w (Q : B → World → Prop) :
  ensures m w (λ a w', ensures (k a) w' Q) → ensures (m ≫= k) w Q.
Proof.
  intros (a & w1 & Hm & b & w2 & Hk & HQ).
  exists b, w2. split; [| exact HQ].
  unfold mbind, Py_bind. rewrite Hm. exact Hk.
Qed.

Lemma ensures_mono {A} (m : Py A) w (P Q : A → World → Prop) :
  ensures m w P → (∀ a w', P a w' → Q a w') → ensures m w Q.
Proof. intros (a & w' & Hm & HP) HPQ. exists a, w'. auto. Qed.

Lemma ensures_get {A} (f : Session → A) w (Q : A → World → Prop) :
  Q (f (self w)) w → ensures (get f) w Q.
Proof. intros HQ. eexists _, _. split; [reflexivity | exact HQ]. Qed.

Lemma ensures_modify (f : Session → Session) w (Q : unit → World → Prop) :
  Q tt (mkWorld (f (self w)) (random w)) → ensures (modify f) w Q.
Proof. intros HQ. eexists _, _. split; [reflexivity | exact HQ]. Qed.

Lemma randint_run a b w :
  a ≤ b →
  randint a b w = (Ok (a + random w 0%nat `mod` (b - a + 1)), advance w).
Proof.
  intros Hab. unfold randint.
  destruct (Z.ltb_spec b a) as [Hlt | _]; [lia | reflexivity].
Qed.

Lemma ensures_randint a b w (Q : Z → World → Prop) :
  a ≤ b → (∀ v, a ≤ v ≤ b → Q v (advance w)) → ensures (randint a b) w Q.
Proof.
  intros Hab HQ. eexists _, _. split; [apply randint_run; exact Hab |].
  apply HQ. pose proof (Z.mod_pos_bound (random w 0%nat) (b - a + 1)). lia.
Qed.

(** Every number of the range is the outcome of some generator state. *)
Lemma randint_onto a b v s :
  a ≤ v ≤ b →
  ∃ r, randint a b (mkWorld s r) = (Ok v, advance (mkWorld s r)).
Proof.
  intros Hv. exists (λ _, v - a). rewrite randint_run by lia.
  cbn. rewrite Z.mod_small by lia. do 2 f_equal. lia.
Qed.

Lemma randint_empty a b w : b < a → randint a b w = (Raise ValueError, w).
Proof.
  intros Hlt. unfold randint.
  destruct (Z.ltb_spec b a); [reflexivity | lia].
Qed.

(** ** Arrays *)

Lemma count_row_zeros k : count_row (replicate k 0) = 0%nat.
Proof.
  unfold count_row. induction k as [| k IH]; [reflexivity |].
  cbn [replicate]. rewrite filter_cons_False; [exact IH | discriminate].
Qed.

Lemma count_zeros k m : count_occupied (replicate k (replicate m 0)) = 0%nat.
Proof.
  unfold count_occupied. induction k as [| k IH]; [reflexivity |].
  cbn [replicate fmap list_fmap sum_list]. cbn in IH |- *.
  rewrite count_row_zeros. exact IH.
Qed.

Lemma count_row_insert (row : list Z) j :
  row !! j = Some 0 → count_row (<[j := 1]> row) = S (count_row row).
Proof.
  unfold count_row. revert j. induction row as [| x row IH]; intros j Hj.
  - destruct j; discriminate.
  - destruct j as [| j]; cbn in Hj.
    + injection Hj as ->. cbn [insert list_insert].
      rewrite filter_cons_True by reflexivity.
      rewrite filter_cons_False by discriminate. reflexivity.
    + cbn [insert list_insert]. fold (@insert _ _ _ (@list_insert Z) j 1 row).
      destruct (decide (x = HIDDEN_BOARD_CELL_OCCUPIED)) as [Hx | Hx].
      * rewrite !filter_cons_True by exact Hx. cbn. f_equal. apply IH, Hj.
      * rewrite !filter_cons_False by exact Hx. apply IH, Hj.
Qed.

Lemma count_insert_row (b : list (list Z)) i row row' :
  b !! i = Some row → count_row row' = S (count_row row) →
  count_occupied (<[i := row']> b) = S (count_occupied b).
Proof.
  unfold count_occupied. intros Hi Hrow. revert i Hi.
  induction b as [| x b IH]; intros i Hi.
  - destruct i; discriminate.
  - destruct i as [| i]; cbn in Hi.
    + injection Hi as ->. cbn. rewrite Hrow. reflexivity.
    + specialize (IH i Hi).
      change (<[S i := row']> (x :: b)) with (x :: <[i := row']> b).
      rewrite !fmap_cons. cbn [sum_list]. rewrite IH. lia.
Qed.

Lemma count_set_cell (b : Board) i j row :
  b !! i = Some row → row !! j = Some 0 →
  count_occupied (set_cell b i j 1) = S (count_occupied b).
Proof.
  intros Hi Hj. unfold set_cell. rewrite Hi.
  apply count_insert_row with (row := row); [exact Hi |].
  apply count_row_insert, Hj.
Qed.

Section Grid.

(** The side of the board. *)
Variable n : Z.

Lemma shaped_lookup (b : Board) i :
  shaped n b → 0 ≤ i < n →
  ∃ row, b !! Z.to_nat i = Some row ∧ Z.of_nat (length row) = n.
Proof.
  intros [Hlen Hrows] Hi.
  destruct (lookup_lt_is_Some_2 b (Z.to_nat i)) as [row Hrow]; [lia |].
  exists row. split; [exact Hrow |].
  rewrite Forall_lookup in Hrows. exact (Hrows _ _ Hrow).
Qed.

Lemma shaped_put (b : Board) r c v :
  shaped n b → 0 ≤ r < n → 0 ≤ c < n → shaped n (put b r c v).
Proof.
  intros Hb Hr Hc. destruct (shaped_lookup b r Hb Hr) as (row & Hrow & Hlen).
  destruct Hb as [Hn Hrows]. unfold put, set_cell. rewrite Hrow. split.
  - rewrite length_insert. exact Hn.
  - apply Forall_insert; [exact Hrows |]. rewrite length_insert. exact Hlen.
Qed.

Lemma cell_put (b : Board) r c v i j :
  shaped n b → 0 ≤ r < n → 0 ≤ c < n →
  cell (put b r c v) i j =
    if decide (i = r ∧ j = c) then Some v else cell b i j.
Proof.
  intros Hb Hr Hc. destruct (shaped_lookup b r Hb Hr) as (row & Hrow & Hlen).
  unfold cell, put, set_cell. rewrite Hrow.
  destruct (Z.leb_spec 0 i) as [Hi | Hi]; cbn [andb];
    [| rewrite decide_False by lia; reflexivity].
  destruct (Z.leb_spec 0 j) as [Hj | Hj];
    [| rewrite decide_False by lia; reflexivity].
  destruct (decide (i = r)) as [-> | Hne].
  - rewrite list_lookup_insert_eq by (apply lookup_lt_Some in Hrow; exact Hrow).
    rewrite Hrow. destruct (decide (j = c)) as [-> | Hnc].
    + rewrite decide_True by done.
      apply list_lookup_insert_eq. lia.
    + rewrite decide_False by (intros [_ ?]; done).
      apply list_lookup_insert_ne. lia.
  - rewrite decide_False by (intros [? _]; done).
    rewrite list_lookup_insert_ne by lia. reflexivity.
Qed.

Lemma count_put (b : Board) r c :
  shaped n b → 0 ≤ r < n → 0 ≤ c < n →
  cell b r c = Some 0 →
  count_occupied (put b r c 1) = S (count_occupied b).
Proof.
  intros Hb Hr Hc Hcell.
  destruct (shaped_lookup b r Hb Hr) as (row & Hrow & Hlen).
  unfold put. apply count_set_cell with (row := row); [exact Hrow |].
  unfold cell in Hcell. rewrite Hrow in Hcell.
  destruct (Z.leb_spec 0 r); [| lia]. destruct (Z.leb_spec 0 c); [| lia].
  exact Hcell.
Qed.

Lemma norm_index_in len i :
  0 ≤ i < Z.of_nat len → norm_index len i = Ok (Z.to_nat i).
Proof.
  intros Hi. unfold norm_index.
  destruct (Z.leb_spec 0 i); [| lia].
  destruct (Z.ltb_spec i (Z.of_nat len)); [reflexivity | lia].
Qed.

Lemma setitem_run (b : Board) r c v w :
  shaped n b → 0 ≤ r < n → 0 ≤ c < n →
  setitem b r c v w = (Ok (put b r c v), w).
Proof.
  intros Hb Hr Hc. destruct (shaped_lookup b r Hb Hr) as (row & Hrow & Hlen).
  unfold setitem. rewrite norm_index_in by (destruct Hb; lia).
  rewrite Hrow. rewrite norm_index_in by lia. reflexivity.
Qed.

Lemma np_ones_run w :
  0 ≤ n →
  np_ones n n w = (Ok (replicate (Z.to_nat n) (replicate (Z.to_nat n) 1)), w).
Proof.
  intros Hn. unfold np_ones.
  destruct (Z.ltb_spec n 0); [lia |]. reflexivity.
Qed.

Lemma np_zeros_run w :
  0 ≤ n →
  np_zeros n n w = (Ok (replicate (Z.to_nat n) (replicate (Z.to_nat n) 0)), w).
Proof.
  intros Hn. unfold np_zeros.
  destruct (Z.ltb_spec n 0); [lia |]. reflexivity.
Qed.

Lemma np_mul_ones k m :
  np_mul (replicate k (replicate m 1)) HIDDEN_BOARD_CELL_UNOCCUPIED
  = replicate k (replicate m 0).
Proof.
  unfold np_mul. rewrite !fmap_replicate. reflexivity.
Qed.

Lemma shaped_zeros :
  0 ≤ n → shaped n (replicate (Z.to_nat n) (replicate (Z.to_nat n) 0)).
Proof.
  intros Hn. split.
  - rewrite length_replicate. lia.
  - apply Forall_replicate. rewrite length_replicate. lia.
Qed.

Lemma cell_zeros i j :
  0 ≤ i < n → 0 ≤ j < n →
  cell (replicate (Z.to_nat n) (replicate (Z.to_nat n) 0)) i j = Some 0.
Proof.
  intros Hi Hj. unfold cell.
  destruct (Z.leb_spec 0 i); [| lia]. destruct (Z.leb_spec 0 j); [| lia].
  cbn [andb]. rewrite lookup_replicate_2 by lia.
  apply lookup_replicate_2. lia.
Qed.

Lemma cell_in_grid (b : Board) i j v :
  shaped n b → cell b i j = Some v → (0 ≤ i < n) ∧ (0 ≤ j < n).
Proof.
  intros [Hn Hrows] Hcell. unfold cell in Hcell.
  destruct (Z.leb_spec 0 i) as [Hi | ]; [| discriminate].
  destruct (Z.leb_spec 0 j) as [Hj | ]; [| discriminate].
  cbn [andb] in Hcell.
  destruct (b !! Z.to_nat i) as [row |] eqn:Hrow; [| discriminate].
  pose proof (lookup_lt_Some _ _ _ Hrow) as Hlt.
  pose proof (lookup_lt_Some _ _ _ Hcell) as Hlt'.
  rewrite Forall_lookup in Hrows. specialize (Hrows _ _ Hrow). cbn in Hrows.
  lia.
Qed.

(** ** Painting cells one by one *)

Lemma painted_zeros :
  0 ≤ n → painted n (replicate (Z.to_nat n) (replicate (Z.to_nat n) 0)) [].
Proof.
  intros Hn. split; [apply shaped_zeros, Hn |]. split; [| split].
  - intros i j Hi Hj. rewrite decide_False by apply not_elem_of_nil.
    apply cell_zeros; assumption.
  - apply count_zeros.
  - constructor.
Qed.

Lemma painted_put (b : Board) L r c :
  painted n b L → 0 ≤ r < n → 0 ≤ c < n → (r, c) ∉ L →
  painted n (put b r c HIDDEN_BOARD_CELL_OCCUPIED) ((r, c) :: L).
Proof.
  intros (Hb & Hcells & Hcount & Hin) Hr Hc Hfresh.
  split; [apply shaped_put; assumption |]. split; [| split].
  - intros i j Hi Hj. rewrite cell_put by assumption.
    destruct (decide (i = r ∧ j = c)) as [[-> ->] | Hne].
    + rewrite decide_True by apply list_elem_of_here. reflexivity.
    + rewrite (Hcells i j Hi Hj).
      destruct (decide ((i, j) ∈ L)) as [HL | HL].
      * rewrite decide_True by (apply list_elem_of_further, HL). reflexivity.
      * rewrite decide_False; [reflexivity |].
        intros [Heq | HL']%elem_of_cons; [| exact (HL HL')].
        injection Heq as -> ->. apply Hne. done.
  - cbn [length]. rewrite <- Hcount. apply count_put; try assumption.
    rewrite (Hcells r c Hr Hc). rewrite decide_False by exact Hfresh.
    reflexivity.
  - constructor; [cbn; lia | exact Hin].
Qed.

Lemma ensures_setitem (b : Board) L r c w (Q : Board → World → Prop) :
  painted n b L → 0 ≤ r < n → 0 ≤ c < n → (r, c) ∉ L →
  (∀ b', painted n b' ((r, c) :: L) → Q b' w) →
  ensures (setitem b r c HIDDEN_BOARD_CELL_OCCUPIED) w Q.
Proof.
  intros Hp Hr Hc Hfresh HQ. eexists _, _. split.
  - apply setitem_run; [apply Hp | assumption | assumption].
  - apply HQ. apply painted_put; assumption.
Qed.

Lemma painted_equiv (b : Board) (L L' : list Cell) :
  painted n b L → (∀ p, p ∈ L ↔ p ∈ L') → length L = length L' →
  painted n b L'.
Proof.
  intros (Hb & Hcells & Hcount & Hin) Hiff Hlen.
  split; [exact Hb |]. split; [| split].
  - intros i j Hi Hj. rewrite (Hcells i j Hi Hj).
    destruct (decide ((i, j) ∈ L)) as [HL | HL].
    + rewrite decide_True by (apply Hiff, HL). reflexivity.
    + rewrite decide_False; [reflexivity |]. intros HL'. apply HL, Hiff, HL'.
  - rewrite Hcount. exact Hlen.
  - rewrite Forall_forall in Hin |- *. intros p Hp. apply Hin, Hiff, Hp.
Qed.

End Grid.

(** ** The board generator paints one plane *)

Ltac fresh_cell :=
  repeat (apply not_elem_of_cons; split; [intros [=]; lia |]);
  apply not_elem_of_nil.

Ltac paint n :=
  apply ensures_bind; eapply (ensures_setitem n);
  [eassumption | lia | lia | fresh_cell |];
  let b := fresh "hidden_board" in
  let H := fresh "Hpainted" in
  intros b H.

Ltac draw v H :=
  apply ensures_bind, ensures_randint; [lia |]; intros v H.

Ltac same_cells :=
  intros p; cbn [template cross tail app];
  rewrite !elem_of_cons, !elem_of_nil; tauto.

Lemma generator_paints n w :
  4 ≤ n →
  ensures (initialize_random_hidden_board n) w
    (λ hb w', self w' = self w ∧
       ∃ o r c, core_in_range n o r c ∧ painted n hb (template o r c)).
Proof.
  intros Hn. unfold initialize_random_hidden_board.
  apply ensures_bind. eexists _, _. split; [apply np_ones_run; lia |].
  rewrite np_mul_ones.
  pose proof (painted_zeros n ltac:(lia)) as Hzero.
  draw o Ho.
  assert (o = 0 ∨ o = 1 ∨ o = 2 ∨ o = 3) as [-> | [-> | [-> | ->]]] by lia.
  - change (0 =? PLANE_HEADING_RIGHT) with true. cbv iota.
    apply ensures_bind.
    draw r Hr. draw c Hc.
    paint n. paint n. paint n.
    apply ensures_ret. cbv beta iota.
    paint n. paint n. paint n. paint n. paint n.
    apply ensures_ret. split; [reflexivity |].
    exists HeadingRight, r, c. split; [cbn; lia |].
    eapply painted_equiv; [eassumption | same_cells | reflexivity].
  - change (1 =? PLANE_HEADING_RIGHT) with false.
    change (1 =? PLANE_HEADING_UP) with true. cbv iota.
    apply ensures_bind.
    draw r Hr. draw c Hc.
    paint n. paint n. paint n.
    apply ensures_ret. cbv beta iota.
    paint n. paint n. paint n. paint n. paint n.
    apply ensures_ret. split; [reflexivity |].
    exists HeadingUp, r, c. split; [cbn; lia |].
    eapply painted_equiv; [eassumption | same_cells | reflexivity].
  - change (2 =? PLANE_HEADING_RIGHT) with false.
    change (2 =? PLANE_HEADING_UP) with false.
    change (2 =? PLANE_HEADING_LEFT) with true. cbv iota.
    apply ensures_bind.
    draw r Hr. draw c Hc.
    paint n. paint n. paint n.
    apply ensures_ret. cbv beta iota.
    paint n. paint n. paint n. paint n. paint n.
    apply ensures_ret. split; [reflexivity |].
    exists HeadingLeft, r, c. split; [cbn; lia |].
    eapply painted_equiv; [eassumption | same_cells | reflexivity].
  - change (3 =? PLANE_HEADING_RIGHT) with false.
    change (3 =? PLANE_HEADING_UP) with false.
    change (3 =? PLANE_HEADING_LEFT) with false.
    change (3 =? PLANE_HEADING_DOWN) with true. cbv iota.
    apply ensures_bind.
    draw r Hr. draw c Hc.
    paint n. paint n. paint n.
    apply ensures_ret. cbv beta iota.
    paint n. paint n. paint n. paint n. paint n.
    apply ensures_ret. split; [reflexivity |].
    exists HeadingDown, r, c. split; [cbn; lia |].
    eapply painted_equiv; [eassumption | same_cells | reflexivity].
Qed.

Lemma template_NoDup o r c : NoDup (template o r c).
Proof.
  destruct o; cbn [template cross tail app];
    repeat (apply NoDup_cons; split; [fresh_cell |]); apply NoDup_nil_2.
Qed.

Lemma painted_template_invariant n (b : Board) o r c :
  core_in_range n o r c → painted n b (template o r c) →
  plane_invariant n b.
Proof.
  intros Hcore (Hb & Hcells & Hcount & Hin).
  assert (Hocc : ∀ i j, occupied b i j ↔ (i, j) ∈ template o r c).
  { intros i j. unfold occupied. split.
    - intros Hij. destruct (cell_in_grid n b i j _ Hb Hij) as [Hi Hj].
      rewrite (Hcells i j Hi Hj) in Hij.
      destruct (decide ((i, j) ∈ template o r c)); [assumption | discriminate].
    - intros Hij. rewrite Forall_forall in Hin.
      destruct (Hin _ Hij) as [Hi Hj]. cbn in Hi, Hj.
      rewrite (Hcells i j Hi Hj). rewrite decide_True by exact Hij.
      reflexivity. }
  split; [exact Hb |]. split; [| split; [| split]].
  - rewrite Hcount. destruct o; reflexivity.
  - exists o, r, c. split; [exact Hcore |].
    split; [apply template_NoDup |].
    split; [reflexivity |]. split; [destruct o; reflexivity | exact Hocc].
  - intros i j Hij. exact (cell_in_grid n b i j _ Hb Hij).
  - intros i j Hi Hj. rewrite (Hcells i j Hi Hj).
    destruct (decide ((i, j) ∈ template o r c)); [left | right]; reflexivity.
Qed.

(** The generator returns, leaves the object alone and delivers a board
    with the plane invariant. *)
Lemma generator_plane n w :
  4 ≤ n →
  ∃ hb w', initialize_random_hidden_board n w = (Ok hb, w') ∧
           self w' = self w ∧ plane_invariant n hb.
Proof.
  intros Hn.
  destruct (generator_paints n w Hn) as (hb & w' & Hrun & Hself & Hplane).
  destruct Hplane as (o & r & c & Hcore & Hp).
  exists hb, w'. split; [exact Hrun |]. split; [exact Hself |].
  exact (painted_template_invariant n hb o r c Hcore Hp).
Qed.

Lemma all_untried_zeros n :
  0 ≤ n →
  all_untried n (replicate (Z.to_nat n) (replicate (Z.to_nat n) 0)).
Proof.
  intros Hn. split; [apply shaped_zeros, Hn |].
  intros i j Hi Hj. apply cell_zeros; assumption.
Qed.

(** ** Runs of the methods *)

Lemma set_boards_run w :
  4 ≤ _board_size (self w) →
  ∃ hb s0 wg,
    initialize_random_hidden_board (_board_size (self w)) (mkWorld s0 (random w))
      = (Ok hb, wg) ∧
    plane_invariant (_board_size (self w)) hb ∧
    set_boards w = (Ok tt, mkWorld (boards_set (self w) hb) (random wg)).
Proof.
  intros Hn. destruct w as [s r]. cbn [self random] in *.
  set (s0 := set_visible_board
               (replicate (Z.to_nat (_board_size s))
                  (replicate (Z.to_nat (_board_size s)) 0))
               (set_hit_count 0 (set_plane_size PLANE_SIZE s))).
  destruct (generator_plane (_board_size s) (mkWorld s0 r) Hn)
    as (hb & wg & Hrun & Hself & Hplane).
  exists hb, s0, wg. split; [exact Hrun |]. split; [exact Hplane |].
  unfold set_boards, mbind, Py_bind, modify, get. cbn [self random].
  cbn [set_plane_size set_hit_count _board_size].
  rewrite np_zeros_run by lia. cbn [self random].
  cbn [set_visible_board _board_size]. fold s0 in Hrun |- *.
  change (mkSession (_board_size s) _ _ _ _ _ _ _ _ _ _) with s0.
  change (_board_size (set_hit_count 0 (set_plane_size PLANE_SIZE s)))
    with (_board_size s).
  rewrite Hrun. destruct wg as [sg rg]. cbn in Hself. subst sg. reflexivity.
Qed.

Lemma action_bound_fits n w :
  4 ≤ n → n ≤ MAX_INT32_SIDE →
  array_spec_BoundedArraySpec [] int32 0 (n ^ 2 - 1) w
  = (Ok (mkSpec [] int32 0 (n ^ 2 - 1)), w).
Proof.
  unfold MAX_INT32_SIDE. intros Hn Hmax. unfold array_spec_BoundedArraySpec.
  change (dtype_low int32) with (-2147483648).
  change (dtype_high int32) with 2147483647.
  rewrite Z.pow_2_r.
  destruct (Z.ltb_spec (n * n - 1) 0); [nia |].
  destruct (Z.ltb_spec 0 (-2147483648)); [lia |].
  destruct (Z.ltb_spec 2147483647 0); [lia |].
  destruct (Z.ltb_spec (n * n - 1) (-2147483648)); [nia |].
  destruct (Z.ltb_spec 2147483647 (n * n - 1)); [nia |].
  reflexivity.
Qed.

Lemma action_bound_overflows n w :
  MAX_INT32_SIDE < n →
  array_spec_BoundedArraySpec [] int32 0 (n ^ 2 - 1) w = (Raise ValueError, w).
Proof.
  unfold MAX_INT32_SIDE. intros Hmax. unfold array_spec_BoundedArraySpec.
  change (dtype_high int32) with 2147483647.
  rewrite Z.pow_2_r.
  destruct (Z.ltb_spec 2147483647 (n * n - 1)) as [_ | Hle]; [| nia].
  rewrite !orb_true_r. reflexivity.
Qed.

Lemma observation_bounds_fit shape w :
  array_spec_BoundedArraySpec shape float32
    VISIBLE_BOARD_CELL_MISS VISIBLE_BOARD_CELL_HIT w
  = (Ok (mkSpec shape float32 VISIBLE_BOARD_CELL_MISS VISIBLE_BOARD_CELL_HIT),
     w).
Proof. reflexivity. Qed.

Lemma init_prefix_run bs d ms r :
  4 ≤ default BOARD_SIZE bs → default BOARD_SIZE bs ≤ MAX_INT32_SIDE →
  __init__ bs d ms (mkWorld blank r)
  = set_boards
      (mkWorld (configured (default BOARD_SIZE bs) (default (9 # 10) d)
                  (default MAX_STEPS_PER_EPISODE ms)) r).
Proof.
  intros Hn Hmax. unfold __init__.
  destruct (Z.leb_spec 4 (default BOARD_SIZE bs)) as [_ | Hlt]; [| lia].
  cbn [negb]. unfold mbind, Py_bind.
  unfold modify at 1 2 3 4 5, get at 1. cbn [self random].
  cbn [set_board_size set_strike_count set_discount set_max_steps
       set_episode_ended _board_size].
  rewrite action_bound_fits by assumption.
  unfold modify at 1, get at 1 2. cbn [self random].
  cbn [set_action_spec _board_size].
  rewrite observation_bounds_fit.
  reflexivity.
Qed.

(** Past the int32 bound the constructor stops at the action spec, with
    the generator state as it was. *)
Lemma init_rejects_large bs d ms s r :
  MAX_INT32_SIDE < default BOARD_SIZE bs →
  ∃ s', __init__ bs d ms (mkWorld s r) = (Raise ValueError, mkWorld s' r).
Proof.
  intros Hmax. unfold __init__.
  destruct (Z.leb_spec 4 (default BOARD_SIZE bs)) as [_ | Hlt];
    [| unfold MAX_INT32_SIDE in Hmax; lia].
  cbn [negb]. unfold mbind, Py_bind.
  unfold modify at 1 2 3 4 5, get at 1. cbn [self random].
  cbn [set_board_size set_strike_count set_discount set_max_steps
       set_episode_ended _board_size].
  rewrite action_bound_overflows by assumption.
  eexists. reflexivity.
Qed.

Lemma init_rejects bs d ms w :
  default BOARD_SIZE bs < 4 →
  __init__ bs d ms w = (Raise AssertionError, w).
Proof.
  intros Hn. unfold __init__.
  destruct (Z.leb_spec 4 (default BOARD_SIZE bs)) as [Hge | _]; [lia |].
  reflexivity.
Qed.

Lemma constructor_run bs d ms r :
  4 ≤ default BOARD_SIZE bs → default BOARD_SIZE bs ≤ MAX_INT32_SIDE →
  ∃ hb s0 wg,
    initialize_random_hidden_board (default BOARD_SIZE bs) (mkWorld s0 r)
      = (Ok hb, wg) ∧
    plane_invariant (default BOARD_SIZE bs) hb ∧
    PlaneStrikePyEnvironment bs d ms r
    = (Ok (boards_set (configured (default BOARD_SIZE bs) (default (9 # 10) d)
                         (default MAX_STEPS_PER_EPISODE ms)) hb),
       random wg).
Proof.
  intros Hn Hmax. unfold PlaneStrikePyEnvironment.
  rewrite init_prefix_run by assumption.
  set (s := configured _ _ _).
  destruct (set_boards_run (mkWorld s r) Hn) as (hb & s0 & wg & Hgen & Hplane & Hrun).
  exists hb, s0, wg. split; [exact Hgen |]. split; [exact Hplane |].
  rewrite Hrun. reflexivity.
Qed.

(** A constructor that returned was given a side from 4 to the int32
    bound. *)
Lemma constructor_returned bs d ms r s r' :
  PlaneStrikePyEnvironment bs d ms r = (Ok s, r') →
  4 ≤ default BOARD_SIZE bs ∧ default BOARD_SIZE bs ≤ MAX_INT32_SIDE.
Proof.
  intros Hnew. unfold PlaneStrikePyEnvironment in Hnew.
  destruct (Z.le_gt_cases 4 (default BOARD_SIZE bs)) as [Hn | Hn].
  - split; [exact Hn |].
    destruct (Z.le_gt_cases (default BOARD_SIZE bs) MAX_INT32_SIDE)
      as [Hmax | Hmax]; [exact Hmax |].
    destruct (init_rejects_large bs d ms blank r ltac:(lia)) as (s' & Hrun).
    rewrite Hrun in Hnew. discriminate.
  - rewrite init_rejects in Hnew by lia. discriminate.
Qed.

Lemma reset_run w :
  4 ≤ _board_size (self w) →
  ∃ hb s0 wg,
    initialize_random_hidden_board (_board_size (self w)) (mkWorld s0 (random w))
      = (Ok hb, wg) ∧
    plane_invariant (_board_size (self w)) hb ∧
    _reset w
    = (Ok (ts_restart (np_array (_visible_board (boards_set (cleared (self w)) hb)))),
       mkWorld (boards_set (cleared (self w)) hb) (random wg)).
Proof.
  intros Hn. destruct w as [s r]. cbn [self random] in *.
  destruct (set_boards_run (mkWorld (cleared s) r) Hn)
    as (hb & s0 & wg & Hgen & Hplane & Hrun).
  exists hb, s0, wg. split; [exact Hgen |]. split; [exact Hplane |].
  unfold _reset, mbind, Py_bind. unfold modify at 1 2 3. cbn [self random].
  fold (cleared s). rewrite Hrun. reflexivity.
Qed.

Lemma step_returns_none action w : _step action w = (Ok None, w).
Proof. reflexivity. Qed.

Lemma render_human_run w :
  render "human" w = (Ok (_visible_board (self w)), w).
Proof. reflexivity. Qed.

Lemma render_other_run mode w :
  mode ≠ "human" → render mode w = (Raise ValueError, w).
Proof.
  intros Hmode. unfold render. rewrite bool_decide_eq_true_2 by exact Hmode.
  reflexivity.
Qed.

(** ** Runs on concrete inputs *)

Example generator_side_4 :
  (initialize_random_hidden_board 4 (mkWorld blank (const_rng 0))).1
  = Ok [[1; 0; 1; 0]; [1; 1; 1; 1]; [1; 0; 1; 0]; [0; 0; 0; 0]].
Proof. reflexivity. Qed.

Example generator_side_6 :
  (initialize_random_hidden_board 6 (mkWorld blank (λ k, Z.of_nat k + 3))).1
  = Ok [[0; 0; 0; 0; 0; 0]; [0; 1; 1; 1; 0; 0]; [0; 0; 1; 0; 0; 0];
        [0; 1; 1; 1; 0; 0]; [0; 0; 1; 0; 0; 0]; [0; 0; 0; 0; 0; 0]].
Proof. reflexivity. Qed.

Example generator_side_6_count :
  count_occupied
    [[0; 0; 0; 0; 0; 0]; [0; 1; 1; 1; 0; 0]; [0; 0; 1; 0; 0; 0];
     [0; 1; 1; 1; 0; 0]; [0; 0; 1; 0; 0; 0]; [0; 0; 0; 0; 0; 0]] = 8%nat.
Proof. reflexivity. Qed.

(** Below side 4 the range of a core is empty and [randint] raises. *)
Example generator_side_3 :
  (initialize_random_hidden_board 3 (mkWorld blank (const_rng 0))).1
  = Raise ValueError.
Proof. reflexivity. Qed.

Example setitem_negative_index :
  (setitem [[0; 0]; [0; 0]] (-1) 0 1 (mkWorld blank (const_rng 0))).1
  = Ok [[0; 0]; [1; 0]].
Proof. reflexivity. Qed.

Example setitem_out_of_range :
  (setitem [[0; 0]; [0; 0]] 2 0 1 (mkWorld blank (const_rng 0))).1
  = Raise IndexError.
Proof. reflexivity. Qed.

(** Every session a program can hold has a board of side 4 or more. *)
Lemma reachable_board_size w : reachable w → 4 ≤ _board_size (self w).
Proof.
  induction 1 as [bs d ms r s r' Hnew | w Hw IH | action w Hw IH
                 | mode w Hw IH | w r Hw IH].
  - destruct (constructor_returned bs d ms r s r' Hnew) as [Hn Hmax].
    destruct (constructor_run bs d ms r Hn Hmax)
      as (hb & s0 & wg & _ & _ & Hrun).
    rewrite Hrun in Hnew. injection Hnew as <- _. exact Hn.
  - destruct (reset_run w IH) as (hb & s0 & wg & _ & _ & Hrun).
    rewrite Hrun. exact IH.
  - exact IH.
  - unfold render. destruct (bool_decide (mode ≠ "human")); exact IH.
  - exact IH.
Qed.

(** ** The board generator *)

(** C1: for every board_size >= 4 and every state of the random
    generator, initialize_random_hidden_board returns a square board of
    that side with exactly 8 occupied cells; they are the 5 cells of a
    cross (the core and its four orthogonal neighbours) and the 3 tail
    cells of one of the four headings, with the core in the range of
    that heading, and every occupied cell has its row and its column in
    [0, board_size). *)
Theorem generated_board_is_one_plane (board_size : Z) (w : World) :
  4 ≤ board_size →
  ∃ hidden_board w',
    initialize_random_hidden_board board_size w = (Ok hidden_board, w') ∧
    plane_invariant board_size hidden_board.
Proof.
  intros Hn.
  destruct (generator_plane board_size w Hn) as (hb & w' & Hrun & _ & Hplane).
  exists hb, w'. split; assumption.
Qed.

Lemma generated_board_is_one_plane_witness :
  4 ≤ 4 ∧
  ∃ hidden_board w',
    initialize_random_hidden_board 4 (mkWorld blank (const_rng 0))
      = (Ok hidden_board, w') ∧
    plane_invariant 4 hidden_board.
Proof.
  split; [lia |].
  apply (generated_board_is_one_plane 4 (mkWorld blank (const_rng 0))). lia.
Defined.

(** ** The constructor *)

(** C7: constructing a session with board_size < 4 fails with an
    AssertionError, and constructing with board_size >= 4 does not raise
    that error: up to side 46340 the constructor returns a session (past
    it the int32 bound check of the action spec stops the constructor,
    which is another error). *)
Theorem constructor_checks_board_size
    (board_size : option Z) (discount : option Q) (max_steps : option Z)
    (r : Rng) :
  (default BOARD_SIZE board_size < 4 →
   (PlaneStrikePyEnvironment board_size discount max_steps r).1
   = Raise AssertionError) ∧
  (4 ≤ default BOARD_SIZE board_size →
   (PlaneStrikePyEnvironment board_size discount max_steps r).1
   ≠ Raise AssertionError) ∧
  (4 ≤ default BOARD_SIZE board_size →
   default BOARD_SIZE board_size ≤ MAX_INT32_SIDE →
   ∃ s, (PlaneStrikePyEnvironment board_size discount max_steps r).1 = Ok s ∧
        _board_size s = default BOARD_SIZE board_size).
Proof.
  split; [| split].
  - intros Hn. unfold PlaneStrikePyEnvironment.
    rewrite init_rejects by exact Hn. reflexivity.
  - intros Hn.
    destruct (Z.le_gt_cases (default BOARD_SIZE board_size) MAX_INT32_SIDE)
      as [Hmax | Hmax].
    + destruct (constructor_run board_size discount max_steps r Hn Hmax)
        as (hb & s0 & wg & _ & _ & Hrun).
      rewrite Hrun. discriminate.
    + unfold PlaneStrikePyEnvironment.
      destruct (init_rejects_large board_size discount max_steps blank r Hmax)
        as (s' & Hrun).
      rewrite Hrun. discriminate.
  - intros Hn Hmax.
    destruct (constructor_run board_size discount max_steps r Hn Hmax)
      as (hb & s0 & wg & _ & _ & Hrun).
    rewrite Hrun. eexists. split; reflexivity.
Qed.

Lemma constructor_checks_board_size_witness :
  (3 < 4 ∧
   (PlaneStrikePyEnvironment (Some 3) None None (const_rng 0)).1
   = Raise AssertionError) ∧
  (4 ≤ 50000 ∧
   (PlaneStrikePyEnvironment (Some 50000) None None (const_rng 0)).1
   ≠ Raise AssertionError) ∧
  (4 ≤ 4 ∧ 4 ≤ MAX_INT32_SIDE ∧
   ∃ s, (PlaneStrikePyEnvironment (Some 4) None None (const_rng 0)).1 = Ok s ∧
        _board_size s = 4).
Proof.
  split; [| split].
  - split; [lia |].
    apply (proj1 (constructor_checks_board_size
                    (Some 3) None None (const_rng 0))).
    cbn. lia.
  - split; [lia |].
    apply (proj1 (proj2 (constructor_checks_board_size
                           (Some 50000) None None (const_rng 0)))).
    cbn. lia.
  - split; [lia |]. split; [unfold MAX_INT32_SIDE; lia |].
    apply (proj2 (proj2 (constructor_checks_board_size
                           (Some 4) None None (const_rng 0))));
      [cbn; lia | unfold MAX_INT32_SIDE; cbn; lia].
Defined.

(** C9: right after a construction with board_size >= 4, before any
    reset or step, the session holds a visible board whose cells are all
    untried (0) and a hidden board with the 8-occupied-cell plane
    invariant, and its counters are 0: this holds of every session the
    constructor returns, and it returns one for every side from 4 to
    46340 (past that the int32 bound check of the action spec raises and
    there is no session). *)
Theorem constructor_sets_boards
    (board_size : option Z) (discount : option Q) (max_steps : option Z)
    (r : Rng) :
  4 ≤ default BOARD_SIZE board_size →
  (∀ s r',
      PlaneStrikePyEnvironment board_size discount max_steps r = (Ok s, r') →
      _board_size s = default BOARD_SIZE board_size ∧
      all_untried (_board_size s) (_visible_board s) ∧
      plane_invariant (_board_size s) (_hidden_board s) ∧
      _hit_count s = 0 ∧ _strike_count s = 0 ∧ _episode_ended s = false) ∧
  (default BOARD_SIZE board_size ≤ MAX_INT32_SIDE →
   ∃ s r',
     PlaneStrikePyEnvironment board_size discount max_steps r = (Ok s, r')).
Proof.
  intros Hn. split.
  - intros s r' Hnew.
    destruct (constructor_returned _ _ _ _ _ _ Hnew) as [_ Hmax].
    destruct (constructor_run board_size discount max_steps r Hn Hmax)
      as (hb & s0 & wg & _ & Hplane & Hrun).
    rewrite Hrun in Hnew. injection Hnew as <- _. cbn.
    split; [reflexivity |].
    split; [apply all_untried_zeros; lia |].
    split; [exact Hplane |]. repeat split.
  - intros Hmax.
    destruct (constructor_run board_size discount max_steps r Hn Hmax)
      as (hb & s0 & wg & _ & _ & Hrun).
    eexists _, _. exact Hrun.
Qed.

Lemma constructor_sets_boards_witness :
  4 ≤ 8 ∧
  ∃ s r',
    PlaneStrikePyEnvironment None None None (const_rng 0) = (Ok s, r') ∧
    _board_size s = 8 ∧
    all_untried (_board_size s) (_visible_board s) ∧
    plane_invariant (_board_size s) (_hidden_board s) ∧
    _hit_count s = 0 ∧ _strike_count s = 0 ∧ _episode_ended s = false.
Proof.
  assert (H8 : 4 ≤ default BOARD_SIZE None) by (change (4 ≤ 8); lia).
  split; [lia |].
  destruct (constructor_sets_boards None None None (const_rng 0) H8)
    as [Hall Hsome].
  destruct Hsome as (s & r' & Hnew);
    [change (8 ≤ 46340); lia |].
  exists s, r'. split; [exact Hnew |]. exact (Hall s r' Hnew).
Defined.

(** C5, as the code has it: for every board_size >= 4, when max_steps is
    not supplied, the session the constructor returns has the module
    constant MAX_STEPS_PER_EPISODE = BOARD_SIZE ** 2 = 64 as max_steps,
    whatever the board_size; that is the square of the configured board
    size only for board_size = 8.  The constructor returns a session for
    every side from 4 to 46340. *)
Theorem default_max_steps_is_constant
    (board_size : option Z) (discount : option Q) (r : Rng) :
  4 ≤ default BOARD_SIZE board_size →
  (∀ s r',
      PlaneStrikePyEnvironment board_size discount None r = (Ok s, r') →
      _board_size s = default BOARD_SIZE board_size ∧
      _max_steps s = MAX_STEPS_PER_EPISODE ∧
      MAX_STEPS_PER_EPISODE = 64 ∧
      (_max_steps s = _board_size s ^ 2 ↔ _board_size s = 8)) ∧
  (default BOARD_SIZE board_size ≤ MAX_INT32_SIDE →
   ∃ s r', PlaneStrikePyEnvironment board_size discount None r = (Ok s, r')).
Proof.
  intros Hn. split.
  - intros s r' Hnew.
    destruct (constructor_returned _ _ _ _ _ _ Hnew) as [_ Hmax].
    destruct (constructor_run board_size discount None r Hn Hmax)
      as (hb & s0 & wg & _ & _ & Hrun).
    rewrite Hrun in Hnew. injection Hnew as <- _. cbn.
    split; [reflexivity |]. split; [reflexivity |]. split; [reflexivity |].
    change MAX_STEPS_PER_EPISODE with 64.
    generalize dependent (default BOARD_SIZE board_size). intros n Hn _ _.
    rewrite Z.pow_2_r. split; [| intros ->; reflexivity].
    intros Hsq. destruct (Z.lt_trichotomy n 8) as [Hlt | [Heq | Hgt]];
      [nia | exact Heq | nia].
  - intros Hmax.
    destruct (constructor_run board_size discount None r Hn Hmax)
      as (hb & s0 & wg & _ & _ & Hrun).
    eexists _, _. exact Hrun.
Qed.

Lemma default_max_steps_is_constant_witness :
  4 ≤ 4 ∧
  ∃ s r',
    PlaneStrikePyEnvironment (Some 4) None None (const_rng 0) = (Ok s, r') ∧
    _board_size s = 4 ∧
    _max_steps s = MAX_STEPS_PER_EPISODE ∧
    MAX_STEPS_PER_EPISODE = 64 ∧
    (_max_steps s = _board_size s ^ 2 ↔ _board_size s = 8).
Proof.
  assert (H4 : 4 ≤ default BOARD_SIZE (Some 4)) by (cbn; lia).
  split; [lia |].
  destruct (default_max_steps_is_constant (Some 4) None (const_rng 0) H4)
    as [Hall Hsome].
  destruct Hsome as (s & r' & Hnew);
    [change (4 ≤ 46340); lia |].
  exists s, r'. split; [exact Hnew |]. exact (Hall s r' Hnew).
Defined.

(** C5 as stated fails: a session built with board_size = 4 and no
    max_steps has max_steps = 64, not 4 ** 2 = 16. *)
Lemma default_max_steps_not_square :
  ∃ s r',
    PlaneStrikePyEnvironment (Some 4) None None (const_rng 0) = (Ok s, r') ∧
    4 ≤ _board_size s ∧
    _board_size s = 4 ∧
    _max_steps s = 64 ∧
    _max_steps s ≠ _board_size s ^ 2.
Proof.
  eexists _, _. split; [vm_compute; reflexivity |].
  cbn. repeat split; lia.
Qed.

(** ** Reset *)

(** C4: on every session (board side >= 4, as the constructor demands)
    reset returns; afterwards strikeCount = 0, hitCount = 0 and
    episodeEnded = false, every cell of the visible board is untried (0),
    the hidden board is the one the generator has just produced from the
    current random state and has the plane invariant, and the returned
    time step carries the all-untried visible board, reward 0 and is not
    terminal. *)
Theorem reset_starts_fresh_episode (w : World) :
  4 ≤ _board_size (self w) →
  ∃ t w',
    _reset w = (Ok t, w') ∧
    _strike_count (self w') = 0 ∧
    _hit_count (self w') = 0 ∧
    _episode_ended (self w') = false ∧
    all_untried (_board_size (self w)) (_visible_board (self w')) ∧
    (∃ s0 wg,
        initialize_random_hidden_board (_board_size (self w))
          (mkWorld s0 (random w))
        = (Ok (_hidden_board (self w')), wg) ∧
        random w' = random wg) ∧
    plane_invariant (_board_size (self w)) (_hidden_board (self w')) ∧
    observation t = _visible_board (self w') ∧
    reward t = 0 ∧
    is_last t = false ∧
    _board_size (self w') = _board_size (self w) ∧
    _max_steps (self w') = _max_steps (self w) ∧
    _discount (self w') = _discount (self w).
Proof.
  intros Hn.
  destruct (reset_run w Hn) as (hb & s0 & wg & Hgen & Hplane & Hrun).
  eexists _, _. split; [exact Hrun |]. cbn.
  split; [reflexivity |]. split; [reflexivity |]. split; [reflexivity |].
  split; [apply all_untried_zeros; lia |].
  split; [exists s0, wg; split; [exact Hgen | reflexivity] |].
  split; [exact Hplane |]. repeat split.
Qed.

Lemma reset_starts_fresh_episode_witness :
  4 ≤ _board_size (self mid_game) ∧
  ∃ t w',
    _reset mid_game = (Ok t, w') ∧
    _strike_count (self w') = 0 ∧
    _hit_count (self w') = 0 ∧
    _episode_ended (self w') = false ∧
    all_untried (_board_size (self mid_game)) (_visible_board (self w')) ∧
    (∃ s0 wg,
        initialize_random_hidden_board (_board_size (self mid_game))
          (mkWorld s0 (random mid_game))
        = (Ok (_hidden_board (self w')), wg) ∧
        random w' = random wg) ∧
    plane_invariant (_board_size (self mid_game)) (_hidden_board (self w')) ∧
    observation t = _visible_board (self w') ∧
    reward t = 0 ∧
    is_last t = false ∧
    _board_size (self w') = _board_size (self mid_game) ∧
    _max_steps (self w') = _max_steps (self mid_game) ∧
    _discount (self w') = _discount (self mid_game).
Proof.
  split; [cbn; lia |].
  apply (reset_starts_fresh_episode mid_game). cbn. lia.
Defined.

(** ** Render *)

(** C8: render(mode) raises ValueError for every mode other than
    "human", and render("human") returns the session's current visible
    board. *)
Theorem render_only_human (mode : string) (w : World) :
  (mode ≠ "human" → (render mode w).1 = Raise ValueError) ∧
  (render "human" w).1 = Ok (_visible_board (self w)).
Proof.
  split.
  - intros Hmode. rewrite render_other_run by exact Hmode. reflexivity.
  - rewrite render_human_run. reflexivity.
Qed.

Lemma render_only_human_witness :
  ("rgb_array" ≠ "human" ∧
   (render "rgb_array" (mkWorld blank (const_rng 0))).1 = Raise ValueError) ∧
  (render "human" (mkWorld blank (const_rng 0))).1
  = Ok (_visible_board (self (mkWorld blank (const_rng 0)))).
Proof.
  split; [split; [discriminate |] |].
  - apply (render_only_human "rgb_array" (mkWorld blank (const_rng 0))).
    discriminate.
  - apply (render_only_human "rgb_array" (mkWorld blank (const_rng 0))).
Defined.

(** C10: render("human") leaves the session as it was: the visible
    board, the hidden board, strikeCount, hitCount and episodeEnded are
    the same after the call as before, and so is everything else. *)
Theorem render_human_changes_nothing (w : World) :
  let w' := (render "human" w).2 in
  _visible_board (self w') = _visible_board (self w) ∧
  _hidden_board (self w') = _hidden_board (self w) ∧
  _strike_count (self w') = _strike_count (self w) ∧
  _hit_count (self w') = _hit_count (self w) ∧
  _episode_ended (self w') = _episode_ended (self w) ∧
  w' = w.
Proof. rewrite render_human_run. cbn. repeat split. Qed.

(** ** Step *)

(** C2 on the code: the session of
    PlaneStrikePyEnvironment(board_size=4, max_steps=1) takes the valid
    action 0.  The strike would spend the whole budget, yet _step
    returns None, no time step with a reward or a terminal flag, and the
    session stays as it was: not ended, strike count 0. *)
Theorem step_ends_no_episode :
  ∃ s r',
    PlaneStrikePyEnvironment (Some 4) None (Some 1) (const_rng 0) = (Ok s, r') ∧
    _max_steps s = 1 ∧
    0 ≤ 0 ≤ _board_size s ^ 2 - 1 ∧
    _step 0 (mkWorld s r') = (Ok None, mkWorld s r') ∧
    _episode_ended (self (_step 0 (mkWorld s r')).2) = false ∧
    _strike_count (self (_step 0 (mkWorld s r')).2) = 0.
Proof.
  eexists _, _. split; [vm_compute; reflexivity |].
  rewrite step_returns_none. cbn. repeat split; lia.
Qed.

(** C3 on the code: on a session of board side 4 whose cell (0, 0) is
    already a hit, striking that cell again with action 0 returns None,
    no time step with reward -1, and the strike count is not
    incremented; the cell and the hit count stay as they were. *)
Theorem repeat_strike_returns_nothing :
  ∃ s r',
    PlaneStrikePyEnvironment (Some 4) None None (const_rng 0) = (Ok s, r') ∧
    let w := mkWorld (struck_once s) r' in
    cell (_visible_board (self w)) 0 0 = Some VISIBLE_BOARD_CELL_HIT ∧
    _step 0 w = (Ok None, w) ∧
    _strike_count (self (_step 0 w).2) = _strike_count (self w) ∧
    _hit_count (self (_step 0 w).2) = _hit_count (self w) ∧
    cell (_visible_board (self (_step 0 w).2)) 0 0
    = Some VISIBLE_BOARD_CELL_HIT.
Proof.
  eexists _, _. split; [vm_compute; reflexivity |].
  cbv zeta. rewrite step_returns_none. cbn [fst snd].
  repeat split; reflexivity.
Qed.

(** C6 on the code: on the session of
    PlaneStrikePyEnvironment(board_size=4) the actions 16 and -1 lie
    outside [0, 15]; _step raises nothing for them, it returns None, and
    the session is not touched. *)
Theorem step_accepts_any_action :
  ∃ s r',
    PlaneStrikePyEnvironment (Some 4) None None (const_rng 0) = (Ok s, r') ∧
    spec_maximum (_action_spec s) = 15 ∧
    _step 16 (mkWorld s r') = (Ok None, mkWorld s r') ∧
    _step (-1) (mkWorld s r') = (Ok None, mkWorld s r').
Proof.
  eexists _, _. split; [vm_compute; reflexivity |].
  rewrite !step_returns_none. repeat split; reflexivity.
Qed.

(** * Further properties of the code *)

(** ** Runs that raise *)

Lemma raises_now {A B} (m : Py A) (k : A → Py B) w e (Q : World → Prop) :
  raises m w e Q → raises (m ≫= k) w e Q.
Proof.
  intros (w' & Hm & HQ). exists w'. split; [| exact HQ].
  unfold mbind, Py_bind. rewrite Hm. reflexivity.
Qed.

Lemma raises_later {A B} (m : Py A) (k : A → Py B) w e (Q : World → Prop) :
  ensures m w (λ a w', raises (k a) w' e Q) → raises (m ≫= k) w e Q.
Proof.
  intros (a & w1 & Hm & w2 & Hk & HQ). exists w2. split; [| exact HQ].
  unfold mbind, Py_bind. rewrite Hm. exact Hk.
Qed.

Lemma raises_randint a b w (Q : World → Prop) :
  b < a → Q w → raises (randint a b) w ValueError Q.
Proof.
  intros Hlt HQ. exists w. split; [apply randint_empty, Hlt | exact HQ].
Qed.

(** A core needs two draws; below side 4 one of the two ranges is
    empty. *)
Lemma core_draw_raises {B} a1 b1 a2 b2 (k : Z → Z → Py B) w s :
  b1 < a1 ∨ b2 < a2 → self w = s →
  raises (r ← randint a1 b1; c ← randint a2 b2; k r c) w ValueError
    (λ w', self w' = s).
Proof.
  intros Hempty Hs. destruct (Z.lt_ge_cases b1 a1) as [Hlt | Hge].
  - apply raises_now, raises_randint; [exact Hlt | exact Hs].
  - apply raises_later, ensures_randint; [lia |]. intros r _.
    apply raises_now, raises_randint; [lia | exact Hs].
Qed.

(** X1: for every board_size below 4 the generator raises ValueError,
    whatever the state of the random generator, and leaves the object
    alone: it never returns a board and never runs into an IndexError. *)
Theorem generator_raises_below_4 (board_size : Z) (w : World) :
  board_size < 4 →
  ∃ w', initialize_random_hidden_board board_size w = (Raise ValueError, w') ∧
        self w' = self w.
Proof.
  intros Hn. unfold initialize_random_hidden_board.
  destruct (Z.lt_ge_cases board_size 0) as [Hneg | Hpos].
  - apply raises_now. exists w. split; [| reflexivity].
    unfold np_ones. destruct (Z.ltb_spec board_size 0); [reflexivity | lia].
  - apply raises_later. eexists _, _. split; [apply np_ones_run; lia |].
    apply raises_later, ensures_randint; [lia |]. intros o Ho.
    apply raises_now.
    assert (o = 0 ∨ o = 1 ∨ o = 2 ∨ o = 3) as [-> | [-> | [-> | ->]]] by lia.
    + change (0 =? PLANE_HEADING_RIGHT) with true. cbv iota.
      apply core_draw_raises; [lia | reflexivity].
    + change (1 =? PLANE_HEADING_RIGHT) with false.
      change (1 =? PLANE_HEADING_UP) with true. cbv iota.
      apply core_draw_raises; [lia | reflexivity].
    + change (2 =? PLANE_HEADING_RIGHT) with false.
      change (2 =? PLANE_HEADING_UP) with false.
      change (2 =? PLANE_HEADING_LEFT) with true. cbv iota.
      apply core_draw_raises; [lia | reflexivity].
    + change (3 =? PLANE_HEADING_RIGHT) with false.
      change (3 =? PLANE_HEADING_UP) with false.
      change (3 =? PLANE_HEADING_LEFT) with false.
      change (3 =? PLANE_HEADING_DOWN) with true. cbv iota.
      apply core_draw_raises; [lia | reflexivity].
Qed.

Lemma generator_raises_below_4_witness :
  3 < 4 ∧
  ∃ w', initialize_random_hidden_board 3 (mkWorld blank (const_rng 2))
        = (Raise ValueError, w') ∧
        self w' = self (mkWorld blank (const_rng 2)).
Proof.
  split; [lia |].
  apply (generator_raises_below_4 3 (mkWorld blank (const_rng 2))). lia.
Defined.

(** ** The board as a function of the draws *)

Lemma ensures_randint_eq a b w (Q : Z → World → Prop) :
  a ≤ b →
  (∀ v, a ≤ v ≤ b → v = a + random w 0%nat `mod` (b - a + 1) →
        Q v (advance w)) →
  ensures (randint a b) w Q.
Proof.
  intros Hab HQ. eexists _, _. split; [apply randint_run; exact Hab |].
  apply HQ; [| reflexivity].
  pose proof (Z.mod_pos_bound (random w 0%nat) (b - a + 1)). lia.
Qed.

Ltac draw_eq v H E :=
  apply ensures_bind, ensures_randint_eq; [lia |]; intros v H E.

Ltac placed :=
  unfold drawn_placement;
  repeat match goal with
         | E : ?v = _ + _ `mod` _ |- _ => cbn [advance random] in E; rewrite <- E; clear E
         end.

Lemma generator_exact n w :
  4 ≤ n →
  ensures (initialize_random_hidden_board n) w
    (λ hb w',
       w' = mkWorld (self w) (after_three (random w)) ∧
       ∃ o r c, drawn_placement n (random w) = (o, r, c) ∧
                core_in_range n o r c ∧ painted n hb (template o r c)).
Proof.
  intros Hn. unfold initialize_random_hidden_board.
  apply ensures_bind. eexists _, _. split; [apply np_ones_run; lia |].
  rewrite np_mul_ones.
  pose proof (painted_zeros n ltac:(lia)) as Hzero.
  draw_eq o Ho Eo.
  assert (o = 0 ∨ o = 1 ∨ o = 2 ∨ o = 3) as [-> | [-> | [-> | ->]]] by lia.
  - change (0 =? PLANE_HEADING_RIGHT) with true. cbv iota.
    apply ensures_bind.
    draw_eq r Hr Er. draw_eq c Hc Ec.
    paint n. paint n. paint n.
    apply ensures_ret. cbv beta iota.
    paint n. paint n. paint n. paint n. paint n.
    apply ensures_ret. split; [reflexivity |].
    exists HeadingRight, r, c. split; [placed; reflexivity |].
    split; [cbn; lia |].
    eapply painted_equiv; [eassumption | same_cells | reflexivity].
  - change (1 =? PLANE_HEADING_RIGHT) with false.
    change (1 =? PLANE_HEADING_UP) with true. cbv iota.
    apply ensures_bind.
    draw_eq r Hr Er. draw_eq c Hc Ec.
    paint n. paint n. paint n.
    apply ensures_ret. cbv beta iota.
    paint n. paint n. paint n. paint n. paint n.
    apply ensures_ret. split; [reflexivity |].
    exists HeadingUp, r, c. split; [placed; reflexivity |].
    split; [cbn; lia |].
    eapply painted_equiv; [eassumption | same_cells | reflexivity].
  - change (2 =? PLANE_HEADING_RIGHT) with false.
    change (2 =? PLANE_HEADING_UP) with false.
    change (2 =? PLANE_HEADING_LEFT) with true. cbv iota.
    apply ensures_bind.
    draw_eq r Hr Er. draw_eq c Hc Ec.
    paint n. paint n. paint n.
    apply ensures_ret. cbv beta iota.
    paint n. paint n. paint n. paint n. paint n.
    apply ensures_ret. split; [reflexivity |].
    exists HeadingLeft, r, c. split; [placed; reflexivity |].
    split; [cbn; lia |].
    eapply painted_equiv; [eassumption | same_cells | reflexivity].
  - change (3 =? PLANE_HEADING_RIGHT) with false.
    change (3 =? PLANE_HEADING_UP) with false.
    change (3 =? PLANE_HEADING_LEFT) with false.
    change (3 =? PLANE_HEADING_DOWN) with true. cbv iota.
    apply ensures_bind.
    draw_eq r Hr Er. draw_eq c Hc Ec.
    paint n. paint n. paint n.
    apply ensures_ret. cbv beta iota.
    paint n. paint n. paint n. paint n. paint n.
    apply ensures_ret. split; [reflexivity |].
    exists HeadingDown, r, c. split; [placed; reflexivity |].
    split; [cbn; lia |].
    eapply painted_equiv; [eassumption | same_cells | reflexivity].
Qed.

Lemma painted_shows n (b : Board) o r c :
  painted n b (template o r c) → shows_plane b o r c.
Proof.
  intros (Hb & Hcells & _ & Hin) i j. unfold occupied. split.
  - intros Hij. destruct (cell_in_grid n b i j _ Hb Hij) as [Hi Hj].
    rewrite (Hcells i j Hi Hj) in Hij.
    destruct (decide ((i, j) ∈ template o r c)); [assumption | discriminate].
  - intros Hij. rewrite Forall_forall in Hin.
    destruct (Hin _ Hij) as [Hi Hj]. cbn in Hi, Hj.
    rewrite (Hcells i j Hi Hj). rewrite decide_True by exact Hij.
    reflexivity.
Qed.

Lemma generator_run_exact n w :
  4 ≤ n →
  ∃ hb o r c,
    initialize_random_hidden_board n w
    = (Ok hb, mkWorld (self w) (after_three (random w))) ∧
    drawn_placement n (random w) = (o, r, c) ∧
    core_in_range n o r c ∧
    shows_plane hb o r c ∧
    plane_invariant n hb.
Proof.
  intros Hn.
  destruct (generator_exact n w Hn)
    as (hb & w' & Hrun & -> & o & r & c & Hdraw & Hcore & Hp).
  exists hb, o, r, c. split; [exact Hrun |]. split; [exact Hdraw |].
  split; [exact Hcore |]. split; [exact (painted_shows n hb o r c Hp) |].
  exact (painted_template_invariant n hb o r c Hcore Hp).
Qed.

Lemma rng_for_placement n o r c :
  core_in_range n o r c → drawn_placement n (rng_for o r c) = (o, r, c).
Proof.
  intros Hcore. unfold drawn_placement.
  destruct o; cbn [core_in_range rng_for heading_code least_core fst snd]
    in Hcore |- *;
    repeat match goal with
           | |- context [if ?b then _ else _] =>
               let v := eval vm_compute in b in change b with v; cbv iota
           end;
    rewrite !Z.mod_small by lia; do 2 f_equal; lia.
Qed.

(** Membership in a template, as arithmetic. *)
Ltac cells_in H :=
  unfold Cell in H; cbn [template cross tail app] in H;
  rewrite ?elem_of_cons, ?elem_of_nil, ?pair_equal_spec in H.

Ltac no_cell H := exfalso; cells_in H; clear -H; lia.

(** The core is the only cell of a plane whose four neighbours all
    belong to the plane. *)
Lemma template_core_unique o r c i j :
  (i, j) ∈ template o r c →
  (i + 1, j) ∈ template o r c → (i - 1, j) ∈ template o r c →
  (i, j + 1) ∈ template o r c → (i, j - 1) ∈ template o r c →
  i = r ∧ j = c.
Proof.
  intros H0 H1 H2 H3 H4.
  destruct o; cells_in H0;
    repeat (destruct H0 as [H0 | H0]); try contradiction;
    destruct H0 as [-> ->];
    first [ split; reflexivity
          | no_cell H1 | no_cell H2 | no_cell H3 | no_cell H4 ].
Qed.

Lemma cross_in_template o r c p : p ∈ cross r c → p ∈ template o r c.
Proof. intros Hp. unfold template. apply elem_of_app. left. exact Hp. Qed.

Lemma tail_in_template o r c p : p ∈ tail o r c → p ∈ template o r c.
Proof. intros Hp. unfold template. apply elem_of_app. right. exact Hp. Qed.

Ltac listed :=
  cbn [cross tail];
  repeat first [apply list_elem_of_here | apply list_elem_of_further].

(** Two planes with the same cells have the same heading and core. *)
Lemma template_inj o r c o' r' c' :
  (∀ p, p ∈ template o r c ↔ p ∈ template o' r' c') →
  o = o' ∧ r = r' ∧ c = c'.
Proof.
  intros Hsame.
  assert (r' = r ∧ c' = c) as [-> ->].
  { apply (template_core_unique o); apply Hsame, cross_in_template; listed. }
  assert (Hmid : ∀ p, p ∈ tail o r c → p ∈ template o' r c).
  { intros p Hp. apply Hsame, tail_in_template, Hp. }
  split; [| split; reflexivity].
  destruct o.
  - specialize (Hmid (r, c - 2) ltac:(listed)).
    destruct o'; first [reflexivity | no_cell Hmid].
  - specialize (Hmid (r + 2, c) ltac:(listed)).
    destruct o'; first [reflexivity | no_cell Hmid].
  - specialize (Hmid (r, c + 2) ltac:(listed)).
    destruct o'; first [reflexivity | no_cell Hmid].
  - specialize (Hmid (r - 2, c) ltac:(listed)).
    destruct o'; first [reflexivity | no_cell Hmid].
Qed.

Lemma shows_plane_inj (b : Board) o r c o' r' c' :
  shows_plane b o r c → shows_plane b o' r' c' → (o, r, c) = (o', r', c').
Proof.
  intros H H'.
  destruct (template_inj o r c o' r' c') as (-> & -> & ->); [| reflexivity].
  intros [i j]. rewrite <- (H i j). apply H'.
Qed.

(** ** More on the board generator *)

(** X2: every placement of the source ranges comes out of the
    generator: for board_size >= 4, a heading and a core in that
    heading's range, some state of the random generator makes
    initialize_random_hidden_board return the board whose occupied
    cells are exactly that plane. *)
Theorem every_placement_is_generated
    (board_size : Z) (o : Orientation) (r c : Z) (s : Session) :
  4 ≤ board_size → core_in_range board_size o r c →
  ∃ hidden_board w',
    initialize_random_hidden_board board_size (mkWorld s (rng_for o r c))
    = (Ok hidden_board, w') ∧
    shows_plane hidden_board o r c ∧
    plane_invariant board_size hidden_board.
Proof.
  intros Hn Hcore.
  destruct (generator_run_exact board_size (mkWorld s (rng_for o r c)) Hn)
    as (hb & o' & r' & c' & Hrun & Hdraw & _ & Hshows & Hplane).
  cbn [random] in Hdraw. rewrite (rng_for_placement _ _ _ _ Hcore) in Hdraw.
  injection Hdraw as <- <- <-.
  eexists hb, _. split; [exact Hrun |]. split; assumption.
Qed.

Lemma every_placement_is_generated_witness :
  4 ≤ 5 ∧ core_in_range 5 HeadingDown 3 3 ∧
  ∃ hidden_board w',
    initialize_random_hidden_board 5 (mkWorld blank (rng_for HeadingDown 3 3))
    = (Ok hidden_board, w') ∧
    shows_plane hidden_board HeadingDown 3 3 ∧
    plane_invariant 5 hidden_board.
Proof.
  split; [lia |]. split; [cbn; lia |].
  apply (every_placement_is_generated 5 HeadingDown 3 3 blank);
    [lia | cbn; lia].
Defined.

(** X3: for board_size >= 4 the generator takes exactly three numbers
    from the random generator and leaves every attribute of the object
    as it was. *)
Theorem generator_takes_three_draws (board_size : Z) (w : World) :
  4 ≤ board_size →
  ∃ hidden_board,
    initialize_random_hidden_board board_size w
    = (Ok hidden_board, mkWorld (self w) (after_three (random w))).
Proof.
  intros Hn.
  destruct (generator_run_exact board_size w Hn)
    as (hb & o & r & c & Hrun & _).
  exists hb. exact Hrun.
Qed.

Lemma generator_takes_three_draws_witness :
  4 ≤ 8 ∧
  ∃ hidden_board,
    initialize_random_hidden_board 8 (mkWorld blank Z.of_nat)
    = (Ok hidden_board,
       mkWorld (self (mkWorld blank Z.of_nat))
         (after_three (random (mkWorld blank Z.of_nat)))).
Proof.
  split; [lia |].
  apply (generator_takes_three_draws 8 (mkWorld blank Z.of_nat)). lia.
Defined.

(** X4: the heading and the core can be read back from a generated
    board: for board_size >= 4 the only plane whose cells are the
    occupied cells of the board is the one fixed by the three draws
    (heading from the first, core row from the second, core column from
    the third). *)
Theorem generated_board_shows_drawn_placement (board_size : Z) (w : World) :
  4 ≤ board_size →
  ∃ hidden_board w',
    initialize_random_hidden_board board_size w = (Ok hidden_board, w') ∧
    ∀ o r c,
      shows_plane hidden_board o r c ↔
      drawn_placement board_size (random w) = (o, r, c).
Proof.
  intros Hn.
  destruct (generator_run_exact board_size w Hn)
    as (hb & o0 & r0 & c0 & Hrun & Hdraw & _ & Hshows & _).
  eexists hb, _. split; [exact Hrun |]. intros o r c. rewrite Hdraw. split.
  - intros H. exact (shows_plane_inj hb _ _ _ _ _ _ Hshows H).
  - intros [= <- <- <-]. exact Hshows.
Qed.

Lemma generated_board_shows_drawn_placement_witness :
  4 ≤ 6 ∧
  ∃ hidden_board w',
    initialize_random_hidden_board 6 (mkWorld blank (const_rng 5))
    = (Ok hidden_board, w') ∧
    ∀ o r c,
      shows_plane hidden_board o r c ↔
      drawn_placement 6 (random (mkWorld blank (const_rng 5))) = (o, r, c).
Proof.
  split; [lia |].
  apply (generated_board_shows_drawn_placement 6 (mkWorld blank (const_rng 5))).
  lia.
Defined.

(** X5: a plane heading up is never placed with its core in column
    board_size - 2, although it would lie wholly on the grid there: the
    source draws that column from [1, board_size - 3].  (For a plane
    heading down the column board_size - 2 is drawn.) *)
Theorem heading_up_never_in_last_columns (board_size r : Z) :
  4 ≤ board_size → 1 ≤ r ≤ board_size - 3 →
  Forall (λ p : Cell, (0 ≤ p.1 < board_size) ∧ (0 ≤ p.2 < board_size))
    (template HeadingUp r (board_size - 2)) ∧
  ∀ w hidden_board w',
    initialize_random_hidden_board board_size w = (Ok hidden_board, w') →
    ¬ shows_plane hidden_board HeadingUp r (board_size - 2).
Proof.
  intros Hn Hr. split.
  - cbn [template cross tail app]. repeat (constructor; [cbn; lia |]).
    constructor.
  - intros w hb w' Hrun Hshows.
    destruct (generator_run_exact board_size w Hn)
      as (hb0 & o0 & r0 & c0 & Hrun0 & _ & Hcore & Hshows0 & _).
    rewrite Hrun in Hrun0. injection Hrun0 as <- _.
    pose proof (shows_plane_inj hb _ _ _ _ _ _ Hshows0 Hshows) as Heq.
    injection Heq as -> -> ->. cbn in Hcore. lia.
Qed.

Lemma heading_up_never_in_last_columns_witness :
  4 ≤ 4 ∧ 1 ≤ 1 ≤ 4 - 3 ∧
  Forall (λ p : Cell, (0 ≤ p.1 < 4) ∧ (0 ≤ p.2 < 4))
    (template HeadingUp 1 (4 - 2)) ∧
  ∀ w hidden_board w',
    initialize_random_hidden_board 4 w = (Ok hidden_board, w') →
    ¬ shows_plane hidden_board HeadingUp 1 (4 - 2).
Proof.
  split; [lia |]. split; [lia |].
  apply (heading_up_never_in_last_columns 4 1); lia.
Defined.

(** ** The plane is in one piece *)

Lemma linked_mono (occ occ' : Cell → Prop) p q :
  (∀ x, occ x → occ' x) → linked occ p q → linked occ' p q.
Proof.
  intros Hsub Hpq. induction Hpq as [Hp | q t _ IH Ht Hadj].
  - apply linked_here, Hsub, Hp.
  - apply (linked_step _ _ q t); [exact IH | apply Hsub, Ht | exact Hadj].
Qed.

Ltac in_plane :=
  cbn [template cross tail app];
  repeat first [apply list_elem_of_here | apply list_elem_of_further].

Ltac side_by_side := unfold adjacent; cbn [fst snd]; lia.

(** One more cell on a path, coming from [q]. *)
Ltac hop q :=
  apply (linked_step _ _ q); [| in_plane | side_by_side].

Ltac from_core := apply linked_here; in_plane.

Lemma template_linked o r c p :
  p ∈ template o r c → linked (λ q, q ∈ template o r c) (r, c) p.
Proof.
  intros Hp. destruct p as [i j]. destruct o; cells_in Hp;
    repeat (destruct Hp as [Hp | Hp]); try contradiction;
    destruct Hp as [-> ->].
  (* heading right: the tail hangs on the arm (r, c - 1) *)
  - from_core.
  - hop (r, c). from_core.
  - hop (r, c). from_core.
  - hop (r, c). from_core.
  - hop (r, c). from_core.
  - hop (r, c - 2). hop (r, c - 1). hop (r, c). from_core.
  - hop (r, c - 1). hop (r, c). from_core.
  - hop (r, c - 2). hop (r, c - 1). hop (r, c). from_core.
  (* heading up: the tail hangs on the arm (r + 1, c) *)
  - from_core.
  - hop (r, c). from_core.
  - hop (r, c). from_core.
  - hop (r, c). from_core.
  - hop (r, c). from_core.
  - hop (r + 2, c). hop (r + 1, c). hop (r, c). from_core.
  - hop (r + 1, c). hop (r, c). from_core.
  - hop (r + 2, c). hop (r + 1, c). hop (r, c). from_core.
  (* heading left: the tail hangs on the arm (r, c + 1) *)
  - from_core.
  - hop (r, c). from_core.
  - hop (r, c). from_core.
  - hop (r, c). from_core.
  - hop (r, c). from_core.
  - hop (r, c + 2). hop (r, c + 1). hop (r, c). from_core.
  - hop (r, c + 1). hop (r, c). from_core.
  - hop (r, c + 2). hop (r, c + 1). hop (r, c). from_core.
  (* heading down: the tail hangs on the arm (r - 1, c) *)
  - from_core.
  - hop (r, c). from_core.
  - hop (r, c). from_core.
  - hop (r, c). from_core.
  - hop (r, c). from_core.
  - hop (r - 2, c). hop (r - 1, c). hop (r, c). from_core.
  - hop (r - 1, c). hop (r, c). from_core.
  - hop (r - 2, c). hop (r - 1, c). hop (r, c). from_core.
Qed.

(** X6: the occupied cells of a generated board are in one piece: for
    board_size >= 4 the board has an occupied core cell from which
    every occupied cell is reached by a path of occupied cells, each
    sharing a side with the one before. *)
Theorem generated_plane_is_connected (board_size : Z) (w : World) :
  4 ≤ board_size →
  ∃ hidden_board w' core,
    initialize_random_hidden_board board_size w = (Ok hidden_board, w') ∧
    occupied hidden_board core.1 core.2 ∧
    ∀ i j, occupied hidden_board i j →
           linked (λ p, occupied hidden_board p.1 p.2) core (i, j).
Proof.
  intros Hn.
  destruct (generator_run_exact board_size w Hn)
    as (hb & o & r & c & Hrun & _ & _ & Hshows & _).
  eexists hb, _, (r, c). split; [exact Hrun |]. split.
  - apply Hshows. in_plane.
  - intros i j Hij.
    apply (linked_mono (λ q, q ∈ template o r c)).
    + intros [x y] Hxy. apply Hshows, Hxy.
    + apply template_linked, Hshows, Hij.
Qed.

Lemma generated_plane_is_connected_witness :
  4 ≤ 7 ∧
  ∃ hidden_board w' core,
    initialize_random_hidden_board 7 (mkWorld blank (const_rng 2))
    = (Ok hidden_board, w') ∧
    occupied hidden_board core.1 core.2 ∧
    ∀ i j, occupied hidden_board i j →
           linked (λ p, occupied hidden_board p.1 p.2) core (i, j).
Proof.
  split; [lia |].
  apply (generated_plane_is_connected 7 (mkWorld blank (const_rng 2))). lia.
Defined.

(** ** What the generator does not look at *)

Lemma blind_ret {A} (a : A) : self_blind (mret a).
Proof. intros s1 s2 r. exists (Ok a), r. split; reflexivity. Qed.

Lemma blind_raise {A} e : self_blind (@raise A e).
Proof. intros s1 s2 r. exists (Raise e), r. split; reflexivity. Qed.

Lemma blind_bind {A B} (m : Py A) (k : A → Py B) :
  self_blind m → (∀ a, self_blind (k a)) → self_blind (m ≫= k).
Proof.
  intros Hm Hk s1 s2 r. destruct (Hm s1 s2 r) as (res & r' & H1 & H2).
  unfold mbind, Py_bind. rewrite H1, H2. destruct res as [a | e].
  - apply Hk.
  - exists (Raise e), r'. split; reflexivity.
Qed.

Lemma blind_randint a b : self_blind (randint a b).
Proof.
  intros s1 s2 r. unfold randint. cbn [random self].
  destruct (b <? a); eexists _, _; split; reflexivity.
Qed.

Lemma blind_np_ones rows cols : self_blind (np_ones rows cols).
Proof.
  unfold np_ones. destruct ((rows <? 0) || (cols <? 0));
    [apply blind_raise | apply blind_ret].
Qed.

Lemma blind_setitem (b : Board) r c v : self_blind (setitem b r c v).
Proof.
  unfold setitem.
  destruct (norm_index (length b) r) as [i | e]; [| apply blind_raise].
  destruct (b !! i) as [row |]; [| apply blind_raise].
  destruct (norm_index (length row) c); [apply blind_ret | apply blind_raise].
Qed.

Ltac blind :=
  repeat first
    [ apply blind_ret | apply blind_raise | apply blind_randint
    | apply blind_np_ones | apply blind_setitem
    | apply blind_bind; [| intros ?] ].

Lemma generator_blind n : self_blind (initialize_random_hidden_board n).
Proof.
  unfold initialize_random_hidden_board.
  apply blind_bind; [apply blind_np_ones | intros ones].
  apply blind_bind; [apply blind_randint | intros o].
  apply blind_bind.
  - destruct (o =? PLANE_HEADING_RIGHT); [blind |].
    destruct (o =? PLANE_HEADING_UP); [blind |].
    destruct (o =? PLANE_HEADING_LEFT); [blind |].
    destruct (o =? PLANE_HEADING_DOWN); blind.
  - intros [[r c] hb]. blind.
Qed.

(** ** Sessions *)

Lemma set_boards_exact w :
  4 ≤ _board_size (self w) →
  ∃ hb,
    plane_invariant (_board_size (self w)) hb ∧
    set_boards w
    = (Ok tt, mkWorld (boards_set (self w) hb) (after_three (random w))).
Proof.
  intros Hn.
  destruct (set_boards_run w Hn) as (hb & s0 & wg & Hgen & Hplane & Hrun).
  destruct (generator_run_exact _ (mkWorld s0 (random w)) Hn)
    as (hb' & _ & _ & _ & Hgen' & _).
  rewrite Hgen in Hgen'. injection Hgen' as <- ->.
  exists hb. split; [exact Hplane | exact Hrun].
Qed.

Lemma reset_exact w :
  4 ≤ _board_size (self w) →
  ∃ hb,
    plane_invariant (_board_size (self w)) hb ∧
    _reset w
    = (Ok (ts_restart (np_array (_visible_board (boards_set (cleared (self w)) hb)))),
       mkWorld (boards_set (cleared (self w)) hb) (after_three (random w))).
Proof.
  intros Hn.
  destruct (reset_run w Hn) as (hb & s0 & wg & Hgen & Hplane & Hrun).
  destruct (generator_run_exact _ (mkWorld s0 (random w)) Hn)
    as (hb' & _ & _ & _ & Hgen' & _).
  rewrite Hgen in Hgen'. injection Hgen' as <- ->.
  exists hb. split; [exact Hplane | exact Hrun].
Qed.

Lemma constructor_exact bs d ms r :
  4 ≤ default BOARD_SIZE bs → default BOARD_SIZE bs ≤ MAX_INT32_SIDE →
  ∃ hb,
    plane_invariant (default BOARD_SIZE bs) hb ∧
    PlaneStrikePyEnvironment bs d ms r
    = (Ok (boards_set (configured (default BOARD_SIZE bs) (default (9 # 10) d)
                         (default MAX_STEPS_PER_EPISODE ms)) hb),
       after_three r).
Proof.
  intros Hn Hmax.
  destruct (constructor_run bs d ms r Hn Hmax)
    as (hb & s0 & wg & Hgen & Hplane & Hrun).
  destruct (generator_run_exact _ (mkWorld s0 r) Hn)
    as (hb' & _ & _ & _ & Hgen' & _).
  rewrite Hgen in Hgen'. injection Hgen' as <- ->.
  exists hb. split; [exact Hplane | exact Hrun].
Qed.

Lemma reachable_settled w : reachable w → settled (self w).
Proof.
  induction 1 as [bs d ms r s r' Hnew | w Hw IH | action w Hw IH
                 | mode w Hw IH | w r Hw IH].
  - destruct (constructor_returned bs d ms r s r' Hnew) as [Hn Hmax].
    destruct (constructor_exact bs d ms r Hn Hmax) as (hb & Hplane & Hrun).
    rewrite Hrun in Hnew. injection Hnew as <- _.
    unfold settled. cbn.
    split; [exact Hn |]. split; [reflexivity |]. split; [reflexivity |].
    split; [reflexivity |]. split; [exact Hplane |].
    split; [apply all_untried_zeros; lia |]. repeat split.
  - destruct IH as (Hn & Hsize & Haspec & Hospec & _).
    destruct (reset_exact w Hn) as (hb & Hplane & Hrun).
    rewrite Hrun. unfold settled. cbn.
    split; [exact Hn |]. split; [reflexivity |]. split; [exact Haspec |].
    split; [exact Hospec |]. split; [exact Hplane |].
    split; [apply all_untried_zeros; lia |]. repeat split.
  - exact IH.
  - unfold render. destruct (bool_decide (mode ≠ "human")); exact IH.
  - exact IH.
Qed.

Lemma untried_within_spec n (b : Board) :
  all_untried n b →
  within_shape_and_bounds
    (mkSpec [n; n] float32 VISIBLE_BOARD_CELL_MISS VISIBLE_BOARD_CELL_HIT) b.
Proof.
  intros [Hb Hcells]. exists n. split; [reflexivity |]. split; [exact Hb |].
  intros i j v Hv. destruct (cell_in_grid n b i j v Hb Hv) as [Hi Hj].
  rewrite (Hcells i j Hi Hj) in Hv. injection Hv as <-.
  cbn. unfold VISIBLE_BOARD_CELL_MISS, VISIBLE_BOARD_CELL_HIT,
    VISIBLE_BOARD_CELL_UNTRIED. lia.
Qed.

(** X7: whatever sequence of reset, step and render calls a session has
    been through since its construction, its board side is at least 4,
    its hidden board has the plane invariant with as many occupied
    cells as _plane_size says, its visible board is a square of that
    side, and action_spec() and observation_spec() return the int32
    bounds [0, board_size ** 2 - 1] and the float32 shape
    (board_size, board_size) with bounds [-1, 1], leaving the session as
    it is. *)
Theorem reachable_session_is_well_formed (w : World) :
  reachable w →
  4 ≤ _board_size (self w) ∧
  plane_invariant (_board_size (self w)) (_hidden_board (self w)) ∧
  Z.of_nat (count_occupied (_hidden_board (self w))) = _plane_size (self w) ∧
  shaped (_board_size (self w)) (_visible_board (self w)) ∧
  action_spec w
  = (Ok (mkSpec [] int32 0 (_board_size (self w) ^ 2 - 1)), w) ∧
  observation_spec w
  = (Ok (mkSpec [_board_size (self w); _board_size (self w)] float32
           VISIBLE_BOARD_CELL_MISS VISIBLE_BOARD_CELL_HIT), w).
Proof.
  intros Hw.
  destruct (reachable_settled w Hw)
    as (Hn & Hsize & Haspec & Hospec & Hplane & Hvis & _).
  split; [exact Hn |]. split; [exact Hplane |]. split.
  - rewrite Hsize. destruct Hplane as (_ & -> & _). reflexivity.
  - split; [apply Hvis |]. unfold action_spec, observation_spec, get.
    rewrite Haspec, Hospec. split; reflexivity.
Qed.

Lemma reachable_session_is_well_formed_witness :
  reachable used_session ∧
  4 ≤ _board_size (self used_session) ∧
  plane_invariant (_board_size (self used_session))
    (_hidden_board (self used_session)) ∧
  Z.of_nat (count_occupied (_hidden_board (self used_session)))
  = _plane_size (self used_session) ∧
  shaped (_board_size (self used_session)) (_visible_board (self used_session)) ∧
  action_spec used_session
  = (Ok (mkSpec [] int32 0 (_board_size (self used_session) ^ 2 - 1)),
     used_session) ∧
  observation_spec used_session
  = (Ok (mkSpec [_board_size (self used_session);
                 _board_size (self used_session)] float32
           VISIBLE_BOARD_CELL_MISS VISIBLE_BOARD_CELL_HIT), used_session).
Proof.
  assert (Hreach : reachable used_session).
  { unfold used_session.
    apply reach_step, reach_render, reach_step, reach_reset.
    unfold first_session. vm_compute.
    apply (reach_new (Some 4) None None (const_rng 0)).
    vm_compute. reflexivity. }
  split; [exact Hreach |].
  apply (reachable_session_is_well_formed used_session). exact Hreach.
Defined.

(** X8: no sequence of reset, step and render calls moves an episode
    forward: in every session reached that way the strike count and the
    hit count are 0, episode_ended is False, every cell of the visible
    board is untried, and a further step returns None and changes
    nothing. *)
Theorem reachable_session_never_progresses (w : World) :
  reachable w →
  _strike_count (self w) = 0 ∧
  _hit_count (self w) = 0 ∧
  _episode_ended (self w) = false ∧
  all_untried (_board_size (self w)) (_visible_board (self w)) ∧
  ∀ action, _step action w = (Ok None, w).
Proof.
  intros Hw.
  destruct (reachable_settled w Hw)
    as (_ & _ & _ & _ & _ & Hvis & Hstrike & Hhit & Hended).
  repeat split; try assumption; apply Hvis.
Qed.

Lemma reachable_session_never_progresses_witness :
  reachable used_session ∧
  _strike_count (self used_session) = 0 ∧
  _hit_count (self used_session) = 0 ∧
  _episode_ended (self used_session) = false ∧
  all_untried (_board_size (self used_session))
    (_visible_board (self used_session)) ∧
  ∀ action, _step action used_session = (Ok None, used_session).
Proof.
  assert (Hreach : reachable used_session).
  { unfold used_session.
    apply reach_step, reach_render, reach_step, reach_reset.
    unfold first_session. vm_compute.
    apply (reach_new (Some 4) None None (const_rng 0)).
    vm_compute. reflexivity. }
  split; [exact Hreach |].
  apply (reachable_session_never_progresses used_session). exact Hreach.
Defined.



(** X10: what reset and render hand out has the shape and lies within
    the bounds of observation_spec(): in every session reached from the
    constructor, the spec returned by observation_spec() is the float32
    spec of shape (board_size, board_size) with bounds [-1, 1]; the
    observation of reset and the array of render("human") have that
    shape and every cell of both lies within those bounds, and the spec
    is the same after the reset.  (The element type of the arrays is
    not part of the statement.) *)
Theorem observations_fit_shape_and_bounds (w : World) :
  reachable w →
  ∃ sp t w' b,
    observation_spec w = (Ok sp, w) ∧
    sp = mkSpec [_board_size (self w); _board_size (self w)] float32
           VISIBLE_BOARD_CELL_MISS VISIBLE_BOARD_CELL_HIT ∧
    _reset w = (Ok t, w') ∧
    within_shape_and_bounds sp (observation t) ∧
    (render "human" w).1 = Ok b ∧
    within_shape_and_bounds sp b ∧
    observation_spec w' = (Ok sp, w').
Proof.
  intros Hw.
  destruct (reachable_settled w Hw) as (Hn & _ & _ & Hospec & _ & Hvis & _).
  destruct (reset_exact w Hn) as (hb & _ & Hrun).
  eexists _, _, _, _. split; [reflexivity |]. split; [exact Hospec |].
  split; [exact Hrun |].
  rewrite Hospec. cbn [observation ts_restart np_array].
  split; [| split; [reflexivity | split]].
  - apply untried_within_spec. cbn. apply all_untried_zeros. lia.
  - apply untried_within_spec, Hvis.
  - unfold observation_spec, get. cbn. rewrite Hospec. reflexivity.
Qed.

Lemma observations_fit_shape_and_bounds_witness :
  reachable used_session ∧
  ∃ sp t w' b,
    observation_spec used_session = (Ok sp, used_session) ∧
    sp = mkSpec [_board_size (self used_session);
                 _board_size (self used_session)] float32
           VISIBLE_BOARD_CELL_MISS VISIBLE_BOARD_CELL_HIT ∧
    _reset used_session = (Ok t, w') ∧
    within_shape_and_bounds sp (observation t) ∧
    (render "human" used_session).1 = Ok b ∧
    within_shape_and_bounds sp b ∧
    observation_spec w' = (Ok sp, w').
Proof.
  assert (Hreach : reachable used_session).
  { unfold used_session.
    apply reach_step, reach_render, reach_step, reach_reset.
    unfold first_session. vm_compute.
    apply (reach_new (Some 4) None None (const_rng 0)).
    vm_compute. reflexivity. }
  split; [exact Hreach |].
  apply (observations_fit_shape_and_bounds used_session). exact Hreach.
Defined.

(** X11: the constructor takes its randomness only after its checks:
    with board_size < 4 it raises without drawing any number, with
    board_size from 4 to 46340 it draws exactly three, and past 46340,
    where the action bound board_size ** 2 - 1 is no int32, it raises
    ValueError without drawing any number. *)
Theorem constructor_draws
    (board_size : option Z) (discount : option Q) (max_steps : option Z)
    (r : Rng) :
  (default BOARD_SIZE board_size < 4 →
   (PlaneStrikePyEnvironment board_size discount max_steps r).2 = r) ∧
  (4 ≤ default BOARD_SIZE board_size →
   default BOARD_SIZE board_size ≤ MAX_INT32_SIDE →
   (PlaneStrikePyEnvironment board_size discount max_steps r).2
   = after_three r) ∧
  (MAX_INT32_SIDE < default BOARD_SIZE board_size →
   PlaneStrikePyEnvironment board_size discount max_steps r
   = (Raise ValueError, r)).
Proof.
  split; [| split].
  - intros Hn. unfold PlaneStrikePyEnvironment.
    rewrite init_rejects by exact Hn. reflexivity.
  - intros Hn Hmax.
    destruct (constructor_exact board_size discount max_steps r Hn Hmax)
      as (hb & _ & Hrun).
    rewrite Hrun. reflexivity.
  - intros Hmax. unfold PlaneStrikePyEnvironment.
    destruct (init_rejects_large board_size discount max_steps blank r Hmax)
      as (s' & Hrun).
    rewrite Hrun. reflexivity.
Qed.

Lemma constructor_draws_witness :
  (2 < 4 ∧
   (PlaneStrikePyEnvironment (Some 2) None None Z.of_nat).2 = Z.of_nat) ∧
  (4 ≤ 8 ∧ 8 ≤ MAX_INT32_SIDE ∧
   (PlaneStrikePyEnvironment None None (Some 10) Z.of_nat).2
   = after_three Z.of_nat) ∧
  (MAX_INT32_SIDE < 46341 ∧
   PlaneStrikePyEnvironment (Some 46341) None None Z.of_nat
   = (Raise ValueError, Z.of_nat)).
Proof.
  split; [| split].
  - split; [lia |].
    apply (proj1 (constructor_draws (Some 2) None None Z.of_nat)). cbn. lia.
  - split; [lia |]. split; [unfold MAX_INT32_SIDE; lia |].
    apply (proj1 (proj2 (constructor_draws None None (Some 10) Z.of_nat)));
      [change (4 ≤ 8); lia | change (8 ≤ 46340); lia].
  - split; [unfold MAX_INT32_SIDE; lia |].
    apply (proj2 (proj2 (constructor_draws (Some 46341) None None Z.of_nat))).
    change (46340 < 46341). lia.
Defined.

(** X12: set_boards on its own is not a reset: for a session of board
    side >= 4 it returns, sets the hit count to 0 and _plane_size to 8,
    replaces the visible board by an all-untried one and the hidden
    board by a generated one with the plane invariant, takes exactly
    three numbers from the random generator, and leaves the strike
    count, episode_ended, board_size, max_steps and discount as they
    were. *)
Theorem set_boards_keeps_the_strike_count (w : World) :
  4 ≤ _board_size (self w) →
  ∃ w',
    set_boards w = (Ok tt, w') ∧
    _hit_count (self w') = 0 ∧
    _plane_size (self w') = 8 ∧
    all_untried (_board_size (self w)) (_visible_board (self w')) ∧
    plane_invariant (_board_size (self w)) (_hidden_board (self w')) ∧
    random w' = after_three (random w) ∧
    _strike_count (self w') = _strike_count (self w) ∧
    _episode_ended (self w') = _episode_ended (self w) ∧
    _board_size (self w') = _board_size (self w) ∧
    _max_steps (self w') = _max_steps (self w) ∧
    _discount (self w') = _discount (self w).
Proof.
  intros Hn. destruct (set_boards_exact w Hn) as (hb & Hplane & Hrun).
  eexists. split; [exact Hrun |]. cbn.
  split; [reflexivity |]. split; [reflexivity |].
  split; [apply all_untried_zeros; lia |]. split; [exact Hplane |].
  repeat split.
Qed.

Lemma set_boards_keeps_the_strike_count_witness :
  4 ≤ _board_size (self ended_game) ∧
  ∃ w',
    set_boards ended_game = (Ok tt, w') ∧
    _hit_count (self w') = 0 ∧
    _plane_size (self w') = 8 ∧
    all_untried (_board_size (self ended_game)) (_visible_board (self w')) ∧
    plane_invariant (_board_size (self ended_game)) (_hidden_board (self w')) ∧
    random w' = after_three (random ended_game) ∧
    _strike_count (self w') = _strike_count (self ended_game) ∧
    _episode_ended (self w') = _episode_ended (self ended_game) ∧
    _board_size (self w') = _board_size (self ended_game) ∧
    _max_steps (self w') = _max_steps (self ended_game) ∧
    _discount (self w') = _discount (self ended_game).
Proof.
  split; [cbn; lia |].
  apply (set_boards_keeps_the_strike_count ended_game). cbn. lia.
Defined.

(** X13: reset rebuilds the session of the constructor: on a session
    built with some board_size (>= 4), discount and max_steps, a reset
    from a given state of the random generator leaves exactly the
    session, and the generator state, that the constructor gives for
    the same arguments from that state. *)
Theorem reset_rebuilds_the_constructed_session
    (board_size : option Z) (discount : option Q) (max_steps : option Z)
    (r0 r1 r : Rng) (s : Session) :
  PlaneStrikePyEnvironment board_size discount max_steps r0 = (Ok s, r1) →
  ∃ t w',
    _reset (mkWorld s r) = (Ok t, w') ∧
    PlaneStrikePyEnvironment board_size discount max_steps r
    = (Ok (self w'), random w').
Proof.
  intros Hnew.
  destruct (constructor_returned _ _ _ _ _ _ Hnew) as [Hn Hmax].
  destruct (constructor_exact board_size discount max_steps r0 Hn Hmax)
    as (hb0 & _ & Hrun0).
  rewrite Hrun0 in Hnew. injection Hnew as <- _.
  set (cfg := configured _ _ _).
  assert (Hsize : _board_size (boards_set cfg hb0) = default BOARD_SIZE board_size)
    by reflexivity.
  destruct (reset_run (mkWorld (boards_set cfg hb0) r) Hn)
    as (hb1 & s1 & wg1 & Hgen1 & _ & Hrun1).
  destruct (constructor_run board_size discount max_steps r Hn Hmax)
    as (hb2 & s2 & wg2 & Hgen2 & _ & Hrun2).
  cbn [self random] in Hgen1. rewrite Hsize in Hgen1.
  destruct (generator_blind (default BOARD_SIZE board_size) s1 s2 r)
    as (res & r' & Hb1 & Hb2).
  rewrite Hgen1 in Hb1. rewrite Hgen2 in Hb2.
  injection Hb1 as <- ->. injection Hb2 as <- ->.
  eexists _, _. split; [exact Hrun1 |]. rewrite Hrun2. reflexivity.
Qed.

Lemma reset_rebuilds_the_constructed_session_witness :
  PlaneStrikePyEnvironment (Some 5) None (Some 12) (const_rng 3)
  = (Ok built_session, after_three (const_rng 3)) ∧
  ∃ t w',
    _reset (mkWorld built_session Z.of_nat) = (Ok t, w') ∧
    PlaneStrikePyEnvironment (Some 5) None (Some 12) Z.of_nat
    = (Ok (self w'), random w').
Proof.
  assert (Hnew :
    PlaneStrikePyEnvironment (Some 5) None (Some 12) (const_rng 3)
    = (Ok built_session, after_three (const_rng 3)))
    by (vm_compute; reflexivity).
  split; [exact Hnew |].
  exact (reset_rebuilds_the_constructed_session (Some 5) None (Some 12)
           (const_rng 3) (after_three (const_rng 3)) Z.of_nat
           built_session Hnew).
Defined.
